(** * SlurmSpawner: a shallow embedding of [slurmspawner/slurmspawner.py]

    The spawner submits one batch job through [sbatch], polls [squeue]
    until the job runs, resolves the execution node with [host], and
    cancels the job with [scancel].  Every external command is an
    [Exec] event answered by a scheduler oracle; the spawner object is a
    record threaded through a state-and-exception monad.

    A command prints bytes.  Text is kept as its UTF-8 bytes, so
    [decode()] checks the bytes and hands them on, and raises
    [UnicodeDecodeError] for bytes that are not UTF-8; [Popen] raises
    [ValueError] for a command line with a NUL in it. *)

From Stdlib Require Import Ascii String.
From stdpp Require Import base option list gmap strings.

(** ** Python string primitives *)

(** The one table of Python's Unicode database that the code reaches,
    through [int()]: the decimal value of a character outside ASCII,
    given as its UTF-8 bytes, when it is a decimal digit. *)
Class PyUnicode : Type := {
  to_decimal : string -> option nat;
}.

Module Py.

(** [p.startswith]-style test used by the substring search. *)
Fixpoint startswith (p s : string) : bool :=
  match p, s with
  | EmptyString, _ => true
  | String a p', String b s' => Ascii.eqb a b && startswith p' s'
  | String _ _, EmptyString => false
  end.

(** Python's [needle in hay] on [str]. *)
Fixpoint contains (needle hay : string) : bool :=
  startswith needle hay ||
  match hay with
  | EmptyString => false
  | String _ hay' => contains needle hay'
  end.

(** The specification of [in]: some split of [hay] around [needle]. *)
Definition substring (needle hay : string) : Prop :=
  exists pre post, hay = pre +:+ needle +:+ post.

(** [t] holds no occurrence of the character [sep]. *)
Definition free_of (sep : ascii) (t : string) : Prop :=
  forall pre post, t <> pre +:+ String sep post.

(** ASCII part of [str.isspace]: TAB, LF, VT, FF, CR, FS, GS, RS, US, SPACE. *)
Definition str_isspace (c : ascii) : bool :=
  let n := nat_of_ascii c in
  ((9 <=? n) && (n <=? 13)) || ((28 <=? n) && (n <=? 32)).

(** Whitespace of [bytes.strip]: TAB, LF, VT, FF, CR, SPACE. *)
Definition bytes_isspace (c : ascii) : bool :=
  let n := nat_of_ascii c in
  ((9 <=? n) && (n <=? 13)) || (n =? 32).

Fixpoint lstrip (sp : ascii -> bool) (s : string) : string :=
  match s with
  | EmptyString => EmptyString
  | String c r => if sp c then lstrip sp r else s
  end.

Fixpoint rstrip (sp : ascii -> bool) (s : string) : string :=
  match s with
  | EmptyString => EmptyString
  | String c r =>
      match rstrip sp r with
      | EmptyString => if sp c then EmptyString else String c EmptyString
      | r' => String c r'
      end
  end.

Definition strip (sp : ascii -> bool) (s : string) : string :=
  rstrip sp (lstrip sp s).

(** [s.split(sep)] for a one-character separator: never an empty list. *)
Fixpoint split (sep : ascii) (s : string) : list string :=
  match s with
  | EmptyString => [EmptyString]
  | String c r =>
      if Ascii.eqb c sep then EmptyString :: split sep r
      else match split sep r with
           | [] => [String c EmptyString]
           | w :: ws => String c w :: ws
           end
  end.

(** [s.split()] with no argument: runs of whitespace separate the
    tokens and empty tokens are dropped.  [cur] is the token being
    read. *)
Fixpoint split_ws_aux (cur : string) (s : string) : list string :=
  match s with
  | EmptyString => match cur with EmptyString => [] | _ => [cur] end
  | String c r =>
      if str_isspace c
      then match cur with
           | EmptyString => split_ws_aux EmptyString r
           | _ => cur :: split_ws_aux EmptyString r
           end
      else split_ws_aux (cur +:+ String c EmptyString) r
  end.

Definition split_ws (s : string) : list string := split_ws_aux EmptyString s.

(** [sep.join(l)] *)
Definition join (sep : string) (l : list string) : string := String.concat sep l.

Definition is_digit (c : ascii) : bool :=
  let n := nat_of_ascii c in (48 <=? n) && (n <=? 57).

(** Digits of an [int()] literal: single underscores may separate digits. *)
Fixpoint int_digits (prev_digit : bool) (s : string) : bool :=
  match s with
  | EmptyString => prev_digit
  | String c r =>
      if is_digit c then int_digits true r
      else if Ascii.eqb c "_" then prev_digit && int_digits false r
      else false
  end.

(** A NUL character in a string. *)
Fixpoint has_nul (s : string) : bool :=
  match s with
  | EmptyString => false
  | String c r => Ascii.eqb c "000" || has_nul r
  end.

(** *** UTF-8 *)

Definition byte_in (lo hi : nat) (c : ascii) : bool :=
  let n := nat_of_ascii c in (lo <=? n) && (n <=? hi).

(** A continuation byte, 80 to BF. *)
Definition cont (c : ascii) : bool := byte_in 128 191 c.

(** The characters of a text given as UTF-8 bytes, each as its own
    bytes, or nothing when the bytes are not UTF-8: a lead byte C2 to F4
    with its continuation bytes, no overlong form, no surrogate, nothing
    above U+10FFFF. *)
Fixpoint utf8_chars (s : string) : option (list string) :=
  match s with
  | EmptyString => Some []
  | String a r =>
      if byte_in 0 127 a then
        option_map (cons (String a EmptyString)) (utf8_chars r)
      else
        match r with
        | String b r2 =>
            if byte_in 194 223 a && cont b then
              option_map (cons (String a (String b EmptyString))) (utf8_chars r2)
            else
              match r2 with
              | String c r3 =>
                  if ((byte_in 224 224 a && byte_in 160 191 b)
                      || (byte_in 225 236 a && cont b)
                      || (byte_in 237 237 a && byte_in 128 159 b)
                      || (byte_in 238 239 a && cont b)) && cont c
                  then option_map (cons (String a (String b (String c EmptyString))))
                                  (utf8_chars r3)
                  else
                    match r3 with
                    | String d r4 =>
                        if ((byte_in 240 240 a && byte_in 144 191 b)
                            || (byte_in 241 243 a && cont b)
                            || (byte_in 244 244 a && byte_in 128 143 b))
                           && cont c && cont d
                        then option_map
                               (cons (String a (String b (String c (String d EmptyString)))))
                               (utf8_chars r4)
                        else None
                    | EmptyString => None
                    end
              | EmptyString => None
              end
        | EmptyString => None
        end
  end.

(** [b.decode()]: the text, as its UTF-8 bytes, or nothing where Python
    raises [UnicodeDecodeError]. *)
Definition decode (b : string) : option string :=
  match utf8_chars b with
  | Some _ => Some b
  | None => None
  end.

Definition codes (c : string) : list nat := map nat_of_ascii (list_ascii_of_string c).

Fixpoint same_codes (a b : list nat) : bool :=
  match a, b with
  | [], [] => true
  | x :: a', y :: b' => (x =? y) && same_codes a' b'
  | _, _ => false
  end.

(** The whitespace of [str] outside ASCII, as UTF-8: U+0085, U+00A0,
    U+1680, U+2000 to U+200A, U+2028, U+2029, U+202F, U+205F, U+3000. *)
Definition unicode_spaces : list (list nat) :=
  [ [194; 133]; [194; 160]; [225; 154; 128];
    [226; 128; 128]; [226; 128; 129]; [226; 128; 130]; [226; 128; 131];
    [226; 128; 132]; [226; 128; 133]; [226; 128; 134]; [226; 128; 135];
    [226; 128; 136]; [226; 128; 137]; [226; 128; 138];
    [226; 128; 168]; [226; 128; 169]; [226; 128; 175]; [226; 129; 159];
    [227; 128; 128] ].

(** [c.isspace()] for one character of a text. *)
Definition char_isspace (c : string) : bool :=
  match c with
  | String a EmptyString => str_isspace a
  | _ => existsb (same_codes (codes c)) unicode_spaces
  end.

(** [t.strip()] on [str]: whitespace characters, those outside ASCII
    too, are dropped from both ends. *)
Fixpoint lstrip_chars (cs : list string) : list string :=
  match cs with
  | [] => []
  | c :: r => if char_isspace c then lstrip_chars r else cs
  end.

Definition str_strip (t : string) : string :=
  match utf8_chars t with
  | Some cs => String.concat EmptyString (rev (lstrip_chars (rev (lstrip_chars cs))))
  | None => t
  end.

(** What [int()] makes of a text before it reads the number: ASCII
    characters stay, whitespace outside ASCII becomes a space, a decimal
    digit outside ASCII becomes the ASCII digit, and at any other
    character the text is cut and ends in a question mark.  (DEL is cut
    too; in a text that is all ASCII Python keeps it, and then rejects
    it as it rejects the question mark.) *)
Fixpoint int_ascii `{PyUnicode} (cs : list string) : string :=
  match cs with
  | [] => EmptyString
  | c :: r =>
      match c with
      | String a EmptyString =>
          if nat_of_ascii a <? 127 then String a (int_ascii r) else "?"
      | _ =>
          if char_isspace c then String " " (int_ascii r)
          else match to_decimal c with
               | Some d => String (ascii_of_nat (48 + d)) (int_ascii r)
               | None => "?"
               end
      end
  end.

(** Whether [int(s)] returns (instead of raising [ValueError]):
    surrounding TAB, LF, VT, FF, CR and space, one optional sign,
    decimal digits.  The limit that newer Pythons put on the number of
    digits is left out. *)
Definition int_parses `{PyUnicode} (s : string) : bool :=
  match utf8_chars s with
  | Some cs =>
      match strip bytes_isspace (int_ascii cs) with
      | String "+" r | String "-" r => int_digits false r
      | t => int_digits false t
      end
  | None => false
  end.

End Py.

(** ** Exceptions and results *)

Inductive exn : Type :=
| KeyError (key : string)
| IndexError
| TypeError
| ValueError
| UnicodeDecodeError.

Inductive result (A : Type) : Type :=
| Ok (a : A)
| Raise (e : exn).
Arguments Ok {A} a.
Arguments Raise {A} e.

Definition rbind {A B} (r : result A) (k : A -> result B) : result B :=
  match r with
  | Ok a => k a
  | Raise e => Raise e
  end.

(** [b.decode()] with its exception. *)
Definition decode (b : string) : result string :=
  match Py.decode b with
  | Some t => Ok t
  | None => Raise UnicodeDecodeError
  end.

(** ** [string.Template.substitute] *)

Module Template.

Definition id_start (c : ascii) : bool :=
  let n := nat_of_ascii c in
  (n =? 95) || ((65 <=? n) && (n <=? 90)) || ((97 <=? n) && (n <=? 122)).

Definition id_char (c : ascii) : bool := id_start c || Py.is_digit c.

Inductive mode : Type :=
| Text
| Dollar
| Named (acc : string)
| Braced (acc : string).

Definition lookup_key (d : gmap string string) (k : string) : result string :=
  match d !! k with
  | Some v => Ok v
  | None => Raise (KeyError k)
  end.

Definition emit (v : string) (rest : result string) : result string :=
  rbind rest (fun r => Ok (v +:+ r)).

(** One left-to-right scan: [$$] is a dollar, [$name] and [${name}] are
    looked up ([KeyError] when missing), any other [$] is a
    [ValueError]. *)
Fixpoint scan (d : gmap string string) (m : mode) (s : string) : result string :=
  match s with
  | EmptyString =>
      match m with
      | Text => Ok EmptyString
      | Named acc => lookup_key d acc
      | Dollar | Braced _ => Raise ValueError
      end
  | String c r =>
      match m with
      | Text =>
          if Ascii.eqb c "$" then scan d Dollar r
          else emit (String c EmptyString) (scan d Text r)
      | Dollar =>
          if Ascii.eqb c "$" then emit "$" (scan d Text r)
          else if Ascii.eqb c "{" then scan d (Braced EmptyString) r
          else if id_start c then scan d (Named (String c EmptyString)) r
          else Raise ValueError
      | Named acc =>
          if id_char c then scan d (Named (acc +:+ String c EmptyString)) r
          else rbind (lookup_key d acc) (fun v =>
               if Ascii.eqb c "$" then emit v (scan d Dollar r)
               else emit v (emit (String c EmptyString) (scan d Text r)))
      | Braced acc =>
          if Ascii.eqb c "}" then
            match acc with
            | EmptyString => Raise ValueError
            | _ => rbind (lookup_key d acc) (fun v => emit v (scan d Text r))
            end
          else if (match acc with EmptyString => id_start c | _ => id_char c end)
          then scan d (Braced (acc +:+ String c EmptyString)) r
          else Raise ValueError
      end
  end.

Definition substitute (tpl : string) (d : gmap string string) : result string :=
  scan d Text tpl.

End Template.

(** ** The outside world *)

Inductive level : Type := DEBUG | INFO | WARN.

(** What a run leaves behind, newest event first. *)
Inductive event : Type :=
| Exec (cmd stdin : string)       (* subprocess.Popen(cmd, shell=True), with stdin *)
| Log (lvl : level) (msg : string) (* self.log.debug / info / warn *)
| Printed (msg : string)           (* print *)
| Sleep (secs : nat).              (* time.sleep *)

(** The scheduler and the other external commands: the standard output
    of a command, given everything that happened before it (newest
    first), the command line and its standard input. *)
Definition scheduler : Type := list event -> string -> string -> string.

(** ** The framework base class

    [jupyterhub.spawner.Spawner] is not part of the repository; the
    three methods reached through [super()] are an interface over the
    base class's own state [B]. *)
Class SpawnerBase (B : Type) : Type := {
  base_load_state : gmap string string -> B -> B;
  base_get_state : B -> gmap string string;
  base_clear_state : B -> B;
}.

(** ** The spawner object *)

Record spawner (B : Type) : Type := Spawner {
  slurm_job_id : option string;   (* Unicode trait; the code also tests for None *)
  user_name : string;             (* self.user.name *)
  server_ip : string;             (* self.user.server.ip *)
  server_port : N;                (* self.user.server.port *)
  cmd : list string;              (* self.cmd *)
  args : list string;             (* self.get_args() *)
  env : gmap string string;       (* self.env *)
  env_str : string;               (* str(self.env), only logged *)
  random_port : N;                (* what random_port() returns *)
  base : B;                       (* state of the base class *)
}.
Arguments Spawner {B}.
Arguments slurm_job_id {B}.
Arguments user_name {B}.
Arguments server_ip {B}.
Arguments server_port {B}.
Arguments cmd {B}.
Arguments args {B}.
Arguments env {B}.
Arguments env_str {B}.
Arguments random_port {B}.
Arguments base {B}.

Definition set_job_id {B} (j : option string) (s : spawner B) : spawner B :=
  Spawner j (user_name s) (server_ip s) (server_port s) (cmd s) (args s)
          (env s) (env_str s) (random_port s) (base s).

Definition set_server_ip {B} (ip : string) (s : spawner B) : spawner B :=
  Spawner (slurm_job_id s) (user_name s) ip (server_port s) (cmd s) (args s)
          (env s) (env_str s) (random_port s) (base s).

Definition set_server_port {B} (p : N) (s : spawner B) : spawner B :=
  Spawner (slurm_job_id s) (user_name s) (server_ip s) p (cmd s) (args s)
          (env s) (env_str s) (random_port s) (base s).

Definition set_base {B} (b : B) (s : spawner B) : spawner B :=
  Spawner (slurm_job_id s) (user_name s) (server_ip s) (server_port s) (cmd s)
          (args s) (env s) (env_str s) (random_port s) b.

(** ** State persistence (lines 67-82) *)

Definition job_id_key : string := "slurm_job_id".

(** Python truthiness of [self.slurm_job_id]. *)
Definition truthy (j : option string) : bool :=
  match j with
  | Some (String _ _) => true
  | Some EmptyString | None => false
  end.

Definition load_state `{SpawnerBase B} (state : gmap string string)
    (s : spawner B) : spawner B :=
  let s := set_base (base_load_state state (base s)) s in
  set_job_id (Some (default EmptyString (state !! job_id_key))) s.

Definition get_state `{SpawnerBase B} (s : spawner B) : gmap string string :=
  let state := base_get_state (base s) in
  match slurm_job_id s with
  | Some (String c r) => <[job_id_key := String c r]> state
  | Some EmptyString | None => state
  end.

Definition clear_state `{SpawnerBase B} (s : spawner B) : spawner B :=
  let s := set_base (base_clear_state (base s)) s in
  set_job_id (Some EmptyString) s.

(** ** The environment of the user (lines 84-92)

    [pwd.getpwnam] is the password database: the home directory of a
    user, or the exception it raises for a name it does not accept (a
    [KeyError] with a message of its own for a name it does not know).
    The dictionary is changed in place and returned, so the second
    component is what the caller's dictionary holds afterwards, also
    when the call raises. *)
Definition user_env {B} (getpwnam : string -> result string) (s : spawner B)
    (environ : gmap string string)
    : result (gmap string string) * gmap string string :=
  let environ := <["USER" := user_name s]> environ in
  match getpwnam (user_name s) with
  | Ok pw_dir =>
      let environ := <["HOME" := pw_dir]> environ in
      (Ok environ, environ)
  | Raise e => (Raise e, environ)
  end.

(** [_env_default] (lines 90-92); [super_env] is what the base class's
    [_env_default] returns. *)
Definition _env_default {B} (getpwnam : string -> result string)
    (super_env : gmap string string) (s : spawner B)
    : result (gmap string string) * gmap string string :=
  user_env getpwnam s super_env.

(** The spawner with [self.env] replaced. *)
Definition set_env {B} (e : gmap string string) (s : spawner B) : spawner B :=
  Spawner (slurm_job_id s) (user_name s) (server_ip s) (server_port s) (cmd s)
          (args s) e (env_str s) (random_port s) (base s).

(** ** The monad of the methods: spawner object, trace, exceptions *)

Record machine (B : Type) : Type := Machine {
  self : spawner B;
  trace : list event;
}.
Arguments Machine {B}.
Arguments self {B}.
Arguments trace {B}.

Definition M (B A : Type) : Type := machine B -> result A * machine B.

Definition ret {B A} (a : A) : M B A := fun m => (Ok a, m).

Definition raise {B A} (e : exn) : M B A := fun m => (Raise e, m).

Definition bind {B A C} (c : M B A) (k : A -> M B C) : M B C :=
  fun m =>
    match c m with
    | (Ok a, m') => k a m'
    | (Raise e, m') => (Raise e, m')
    end.

Notation "'let!' x ':=' c 'in' k" := (bind c (fun x => k))
  (at level 10, x name, c at level 100, k at level 200).
Notation "c ';;;' k" := (bind c (fun _ => k))
  (at level 100, k at level 200, right associativity).

Definition get_self {B} : M B (spawner B) := fun m => (Ok (self m), m).

(** A pure step that may raise. *)
Definition lift {B A} (r : result A) : M B A := fun m => (r, m).

Definition modify_self {B} (f : spawner B -> spawner B) : M B unit :=
  fun m => (Ok tt, Machine (f (self m)) (trace m)).

Definition emit_event {B} (e : event) : M B unit :=
  fun m => (Ok tt, Machine (self m) (e :: trace m)).

Definition log {B} (lvl : level) (msg : string) : M B unit := emit_event (Log lvl msg).
Definition py_print {B} (msg : string) : M B unit := emit_event (Printed msg).
Definition sleep {B} (secs : nat) : M B unit := emit_event (Sleep secs).

(** [l[-1]] with its [IndexError]. *)
Definition item_last {B} (l : list string) : M B string :=
  match last l with
  | Some x => ret x
  | None => raise IndexError
  end.

(** ['...%s...' % j] for a job id that may be [None]. *)
Definition str_of_id (j : option string) : string :=
  match j with
  | Some s => s
  | None => "None"
  end.

Definition dquote : string := String "034"%char EmptyString.
Definition newline : string := String "010"%char EmptyString.

(** ** The methods of [SlurmSpawner] *)

Section Methods.

Context {B : Type} `{SpawnerBase B} `{PyUnicode}.
Variable sched : scheduler.

(** [subprocess.Popen(cmd, shell=True, stdin=PIPE, stdout=PIPE)] followed
    by [communicate(stdin)[0]]: the raw standard output.  For a command
    line with a NUL in it [Popen] raises [ValueError] and nothing is
    run.  The command line reaches the shell in UTF-8, the file system
    encoding of Python under POSIX. *)
Definition popen (c stdin : string) : M B string :=
  fun m =>
    if Py.has_nul c then (Raise ValueError, m)
    else (Ok (sched (trace m) c stdin), Machine (self m) (Exec c stdin :: trace m)).

(** [run_command] (lines 24-31).  Standard error is not piped, so
    [out[1]] is [None] and the [else] branch always runs. *)
Definition run_command (c : string) : M B string :=
  let! out := popen c EmptyString in
  let! text := lift (decode out) in
  ret (Py.str_strip text).

Definition squeue_state_cmd (j : string) : string := "squeue -h -j " +:+ j +:+ " -o %T".
Definition squeue_node_cmd (j : string) : string := "squeue -h -j " +:+ j +:+ " -o %N".
Definition host_cmd (node : string) : string := "host " +:+ node.
Definition scancel_cmd (j : string) : string := "scancel " +:+ j.

(** [_check_slurm_job_state] (lines 94-104) *)
Definition _check_slurm_job_state : M B string :=
  let! s := get_self in
  match slurm_job_id s with
  | None | Some EmptyString => ret EmptyString
  | Some j =>
      let! out := run_command (squeue_state_cmd j) in
      log INFO ("Notebook server for user " +:+ user_name s +:+ ": Slurm jobid "
                +:+ j +:+ " status: " +:+ out) ;;;
      ret out
  end.

(** The script template of [_run_jupyterhub_singleuser] (lines 117-130). *)
Definition sbatch_template : string :=
"#!/bin/bash
#SBATCH --partition=$queue
#SBATCH --time=$hours:00:00
#SBATCH -o /home/$user/jupyterhub_slurmspawner_%j.log
#SBATCH --job-name=spawner-jupyterhub
#SBATCH --workdir=/home/$user
#SBATCH --mem=$mem
#SBATCH --uid=$user
#SBATCH --get-user-env=L

which jupyterhub-singleuser
$export_cmd
$cmd
        ".

(** Lines 132-138: the rendered script, or the exception of [full_cmd[1]]. *)
Definition render_sbatch (c user : string) : result string :=
  let queue := "all" in
  let mem := "200" in
  let hours := "2" in
  let full_cmd := Py.split ";" c in
  match full_cmd !! 0, full_cmd !! 1 with
  | Some export_cmd, Some c' =>
      Template.substitute sbatch_template
        (<["export_cmd" := export_cmd]> (<["cmd" := c']> (<["queue" := queue]>
         (<["mem" := mem]> (<["hours" := hours]> (<["user" := user]> ∅))))))
  | _, _ => Raise IndexError
  end.

(** [_run_jupyterhub_singleuser] (lines 113-143) *)
Definition _run_jupyterhub_singleuser (c user : string) : M B string :=
  match render_sbatch c user with
  | Raise e => raise e
  | Ok sbatch =>
      py_print ("Submitting *****{" +:+ newline +:+ sbatch +:+ newline +:+ "}*****") ;;;
      let! out := popen "sbatch" sbatch in
      ret (Py.strip Py.bytes_isspace out)
  end.

(** [run_jupyterhub_singleuser] (lines 106-111) hands the call to the
    single-thread executor; [start] waits for the future, so the call is
    sequential here. *)
Definition run_jupyterhub_singleuser (c user : string) : M B string :=
  _run_jupyterhub_singleuser c user.

(** [get_slurm_job_info] (lines 145-156) *)
Definition get_slurm_job_info (jobid : option string) : M B string :=
  match jobid with
  | None => raise TypeError
  | Some j =>
      let! out1 := popen (squeue_node_cmd j) EmptyString in
      let! node_name := lift (decode (Py.strip Py.bytes_isspace out1)) in
      let! out2 := popen (host_cmd node_name) EmptyString in
      let! out := lift (decode (Py.strip Py.bytes_isspace out2)) in
      item_last (Py.split " " out)
  end.

(** How the [for] loop of [start] is left. *)
Inductive loop_exit : Type :=
| Broke        (* break: RUNNING seen *)
| Exhausted    (* range(15) used up *)
| Returned (v : nat).

(** The loop of lines 187-196 with [n] iterations left. *)
Fixpoint start_loop (n : nat) (job_state : string) : M B loop_exit :=
  match n with
  | O => ret Exhausted
  | S n' =>
      log INFO ("job_state is " +:+ job_state) ;;;
      if Py.contains "RUNNING" job_state then ret Broke
      else if Py.contains "PENDING" job_state then
        let! job_state' := _check_slurm_job_state in
        sleep 1 ;;;
        start_loop n' job_state'
      else
        let! s := get_self in
        log INFO ("Job " +:+ str_of_id (slurm_job_id s) +:+ " failed to start!") ;;;
        ret (Returned 1)
  end.

(** [start] (lines 158-201).  The result is [Some 1] for [return 1] and
    [None] when the method falls off its end. *)
Definition start : M B (option nat) :=
  let! s := get_self in
  modify_self (set_server_port (random_port s)) ;;;
  let c := cmd s ++ args s in
  log DEBUG ("Env: " +:+ env_str s) ;;;
  log INFO ("Spawning " +:+ Py.join " " c) ;;;
  let! c :=
    match env s !! "JPY_API_TOKEN" with
    | Some v => ret (("export JPY_API_TOKEN=" +:+ dquote +:+ v +:+ dquote +:+ ";") :: c)
    | None => raise (KeyError "JPY_API_TOKEN")
    end in
  let! output := run_jupyterhub_singleuser (Py.join " " c) (user_name s) in
  let! output := lift (decode output) in
  log DEBUG ("Stdout of trying to call run_jupyterhub_singleuser(): " +:+ output) ;;;
  let! tok := item_last (Py.split " " output) in
  modify_self (set_job_id (Some tok)) ;;;
  (if Py.int_parses tok then ret tt
   else log INFO ("sbatch returned this at the end of their string: " +:+ tok)) ;;;
  let! job_state := _check_slurm_job_state in
  let! r := start_loop 15 job_state in
  match r with
  | Returned v => ret (Some v)
  | Broke | Exhausted =>
      let! s := get_self in
      let! notebook_ip := get_slurm_job_info (slurm_job_id s) in
      modify_self (set_server_ip notebook_ip) ;;;
      log INFO ("Notebook server ip is " +:+ notebook_ip) ;;;
      ret None
  end.

(** Two parts of [start] on their own, for the lemmas: what follows the
    loop (lines 196-201), and what runs once the job id is stored
    (lines 186-201). *)
Definition after_loop (r : loop_exit) : M B (option nat) :=
  match r with
  | Returned v => ret (Some v)
  | Broke | Exhausted =>
      let! s := get_self in
      let! notebook_ip := get_slurm_job_info (slurm_job_id s) in
      modify_self (set_server_ip notebook_ip) ;;;
      log INFO ("Notebook server ip is " +:+ notebook_ip) ;;;
      ret None
  end.

Definition await_job : M B (option nat) :=
  let! job_state := _check_slurm_job_state in
  let! r := start_loop 15 job_state in
  after_loop r.

(** [poll] (lines 203-217): [None] while the job is alive, [Some 1]
    otherwise. *)
Definition poll : M B (option nat) :=
  let! s := get_self in
  match slurm_job_id s with
  | Some _ =>
      let! state := _check_slurm_job_state in
      if Py.contains "RUNNING" state || Py.contains "PENDING" state then ret None
      else modify_self clear_state ;;; ret (Some 1)
  | None =>
      if negb (truthy (slurm_job_id s)) then modify_self clear_state ;;; ret (Some 1)
      else ret None
  end.

(** The membership test of line 242. *)
Definition cancel_labels : list string :=
  ["CANCELLED"; "COMPLETED"; "FAILED"; "COMPLETING"].

Definition is_cancel_label (job_state : string) : bool :=
  existsb (String.eqb job_state) cancel_labels.

(** [stop] (lines 226-247) *)
Definition stop (now : bool) : M B unit :=
  let! status := poll in
  match status with
  | Some _ => ret tt
  | None =>
      let! s := get_self in
      match slurm_job_id s with
      | None => raise TypeError
      | Some j =>
          let c := scancel_cmd j in
          log INFO ("Cancelling slurm job " +:+ j +:+ " for user " +:+ user_name s) ;;;
          let! job_state := run_command c in
          if is_cancel_label job_state then ret tt
          else
            let! status := poll in
            match status with
            | None =>
                let! s := get_self in
                log WARN ("Job " +:+ str_of_id (slurm_job_id s) +:+ " never cancelled")
            | Some _ => ret tt
            end
      end
  end.

End Methods.

(** ** Reading a run *)

(** The three-way test of lines 189-196 on a state string; [poll]
    (line 208) keeps the job for the first two.  The code does not tell
    a job it never knew from one that has ended: both are [TERMINAL]. *)
Inductive JobState : Type := RUNNING | PENDING | TERMINAL.

Definition derive_state (out : string) : JobState :=
  if Py.contains "RUNNING" out then RUNNING
  else if Py.contains "PENDING" out then PENDING
  else TERMINAL.

(** The test of line 208: [poll] reports the job alive. *)
Definition alive (st : string) : bool :=
  Py.contains "RUNNING" st || Py.contains "PENDING" st.

(** The command lines of a trace, oldest first. *)
Fixpoint commands (tr : list event) : list string :=
  match tr with
  | [] => []
  | Exec c _ :: tr' => commands tr' ++ [c]
  | _ :: tr' => commands tr'
  end.

(** How many times the command line [c] was run. *)
Fixpoint count_exec (c : string) (tr : list event) : nat :=
  match tr with
  | [] => 0
  | Exec c' _ :: tr' => (if String.eqb c' c then 1 else 0) + count_exec c tr'
  | _ :: tr' => count_exec c tr'
  end.

(** What [run_command] returns for the command line [c] after history
    [h]: [ValueError] for a NUL in [c], [UnicodeDecodeError] for output
    that is not UTF-8, the stripped text otherwise. *)
Definition run_reply (sched : scheduler) (c : string) (h : list event) : result string :=
  if Py.has_nul c then Raise ValueError
  else rbind (decode (sched h c EmptyString)) (fun t => Ok (Py.str_strip t)).

(** The machine after [Popen] was tried on [c]: the command has run
    unless its line holds a NUL. *)
Definition ran {B} (c : string) (m : machine B) : machine B :=
  if Py.has_nul c then m else Machine (self m) (Exec c EmptyString :: trace m).

(** What [_check_slurm_job_state] gets for job [j] after history [h]. *)
Definition state_reply (sched : scheduler) (j : string) (h : list event) : result string :=
  run_reply sched (squeue_state_cmd j) h.

(** What [scancel] prints for job [j] after history [h], as
    [run_command] returns it. *)
Definition cancel_reply (sched : scheduler) (j : string) (h : list event) : result string :=
  run_reply sched (scancel_cmd j) h.

(** The trace after one state check for job [j] of user [user], made
    after [tr] and answered [out]. *)
Definition checked (user j out : string) (tr : list event) : list event :=
  Log INFO ("Notebook server for user " +:+ user +:+ ": Slurm jobid " +:+ j
            +:+ " status: " +:+ out)
  :: Exec (squeue_state_cmd j) EmptyString :: tr.

(** Lines 147-154: the node name printed for job [j] after history [h],
    and the address read from what [host] prints for [node]. *)
Definition node_reply (sched : scheduler) (j : string) (h : list event) : result string :=
  if Py.has_nul (squeue_node_cmd j) then Raise ValueError
  else decode (Py.strip Py.bytes_isspace (sched h (squeue_node_cmd j) EmptyString)).

Definition host_reply (sched : scheduler) (node : string) (h : list event) : result string :=
  if Py.has_nul (host_cmd node) then Raise ValueError
  else rbind (decode (Py.strip Py.bytes_isspace (sched h (host_cmd node) EmptyString)))
             (fun t => Ok (default EmptyString (last (Py.split " " t)))).

(** Lines 142, 175 and 177: the job id read from the raw output of
    [sbatch]. *)
Definition parse_job_id (raw : string) : result string :=
  rbind (decode (Py.strip Py.bytes_isspace raw))
        (fun t => Ok (default EmptyString (last (Py.split " " t)))).

(** The scheduler prints a submission line ending in [tok], whatever
    the script. *)
Definition submits (sched : scheduler) (tok : string) : Prop :=
  forall h stdin, parse_job_id (sched h "sbatch" stdin) = Ok tok.

(** The state queries for [j] numbered [lo], ..., [hi - 1] (counting
    from zero over the whole history) are answered with text of state
    [st]. *)
Definition answers (sched : scheduler) (j : string) (lo hi : nat) (st : JobState) : Prop :=
  forall h, lo <= count_exec (squeue_state_cmd j) h < hi ->
            exists out, state_reply sched j h = Ok out /\ derive_state out = st.

(** The scheduler names [node] as the node of job [j], and [host]
    prints a line ending in [ip] for [node]. *)
Definition names_node (sched : scheduler) (j node : string) : Prop :=
  forall h, node_reply sched j h = Ok node.

Definition resolves (sched : scheduler) (node ip : string) : Prop :=
  forall h, host_reply sched node h = Ok ip.

(** Whatever happened before, the command [c] prints text, that is,
    bytes that are UTF-8. *)
Definition prints_text (sched : scheduler) (c : string) : Prop :=
  forall h, exists t, decode (sched h c EmptyString) = Ok t.

(** [m'] has the object of [m] and a trace that adds to the trace of
    [m]. *)
Definition extends {B} (m m' : machine B) : Prop :=
  self m' = self m /\ exists l, trace m' = l ++ trace m.

(** The script template with its six placeholders filled in. *)
Definition rendered_script (export_cmd c user : string) : string :=
  "#!/bin/bash
#SBATCH --partition=all
#SBATCH --time=2:00:00
#SBATCH -o /home/" +:+ user +:+ "/jupyterhub_slurmspawner_%j.log
#SBATCH --job-name=spawner-jupyterhub
#SBATCH --workdir=/home/" +:+ user +:+ "
#SBATCH --mem=200
#SBATCH --uid=" +:+ user +:+ "
#SBATCH --get-user-env=L

which jupyterhub-singleuser
" +:+ export_cmd +:+ "
" +:+ c +:+ "
        ".

(** The same script, line by line. *)
Definition script_lines (export_cmd c user : string) : list string :=
  [ "#!/bin/bash";
    "#SBATCH --partition=all";
    "#SBATCH --time=2:00:00";
    "#SBATCH -o /home/" +:+ user +:+ "/jupyterhub_slurmspawner_%j.log";
    "#SBATCH --job-name=spawner-jupyterhub";
    "#SBATCH --workdir=/home/" +:+ user;
    "#SBATCH --mem=200";
    "#SBATCH --uid=" +:+ user;
    "#SBATCH --get-user-env=L";
    "";
    "which jupyterhub-singleuser";
    export_cmd;
    c;
    "        " ].

(** The lines of the script that carry the fixed settings, each with
    the line breaks around it. *)
Definition default_directives (user : string) : list string :=
  [ newline +:+ "#SBATCH --partition=all" +:+ newline;
    newline +:+ "#SBATCH --mem=200" +:+ newline;
    newline +:+ "#SBATCH --time=2:00:00" +:+ newline;
    newline +:+ ("#SBATCH -o /home/" +:+ user +:+ "/jupyterhub_slurmspawner_%j.log") +:+ newline;
    newline +:+ "#SBATCH --job-name=spawner-jupyterhub" +:+ newline;
    newline +:+ ("#SBATCH --workdir=/home/" +:+ user) +:+ newline;
    newline +:+ "#SBATCH --get-user-env=L" +:+ newline ].

(** The command lines one call of [stop] can add for job [j]: nothing,
    the state query of [poll], then [scancel], then one more state
    query. *)
Definition stop_commands (j : string) : list (list string) :=
  [ [];
    [squeue_state_cmd j];
    [squeue_state_cmd j; scancel_cmd j];
    [squeue_state_cmd j; scancel_cmd j; squeue_state_cmd j] ].

(** The final whitespace-delimited token, in the words of the
    specification: the last element of [s.split()], empty when there is
    none. *)
Definition last_ws_token (s : string) : string :=
  default EmptyString (last (Py.split_ws s)).

(** ** Concrete surroundings for the examples *)

(** A base class that persists one [api_token] field. *)
Record token_base : Type := TokenBase { api_token : string }.

#[export] Instance token_base_spawner : SpawnerBase token_base := {
  base_load_state state b := TokenBase (default EmptyString (state !! "api_token"));
  base_get_state b :=
    match api_token b with
    | EmptyString => ∅
    | t => {["api_token" := t]}
    end;
  base_clear_state b := TokenBase EmptyString;
}.

(** A scheduler stub for job [j]: [sbatch] prints [sbatch_out], the
    n-th state query prints the n-th element of [states] and [rest]
    afterwards, [scancel] prints [cancel_out], the node query prints
    [node], and [host] prints [host_out]. *)
Definition stub (j sbatch_out : string) (states : list string) (rest : string)
    (cancel_out node host_out : string) : scheduler :=
  fun h c _ =>
    if String.eqb c "sbatch" then sbatch_out
    else if String.eqb c (squeue_state_cmd j)
      then nth (count_exec (squeue_state_cmd j) h) states rest
    else if String.eqb c (scancel_cmd j) then cancel_out
    else if String.eqb c (squeue_node_cmd j) then node
    else if String.eqb c (host_cmd node) then host_out
    else EmptyString.

Definition alice (j : option string) : spawner token_base :=
  Spawner j "alice" "" 0%N ["jupyterhub-singleuser"] ["--port=8888"]
          {["JPY_API_TOKEN" := "secret"]} "{'JPY_API_TOKEN': 'secret'}" 8888%N
          (TokenBase "secret").

(** One byte, by its number. *)
Definition byte (n : nat) : string := String (ascii_of_nat n) EmptyString.

Definition tab : string := String "009"%char EmptyString.

Definition sbatch_line : string := "Submitted batch job 209" +:+ newline.

(** Three PENDING answers, then RUNNING on node07. *)
Definition stub_pending3 : scheduler :=
  stub "209" sbatch_line ["PENDING"; "PENDING"; "PENDING"] "RUNNING" ""
       "node07" "node07 has address 10.0.0.7".

(** PENDING for ever; no node is assigned. *)
Definition stub_always_pending : scheduler :=
  stub "209" sbatch_line [] "PENDING" "" "" "".

(** The job has failed by the first state query. *)
Definition stub_failed : scheduler :=
  stub "209" sbatch_line [] "FAILED" "" "" "".

(** [sbatch] separates the id with a TAB instead of a space. *)
Definition stub_tab : scheduler :=
  stub ("job" +:+ tab +:+ "209") ("Submitted batch job" +:+ tab +:+ "209" +:+ newline)
       [] "RUNNING" "" "node07" "node07 has address 10.0.0.7".

(** A running job that is gone after [scancel], which prints nothing. *)
Definition stub_cancelled : scheduler :=
  stub "209" sbatch_line ["RUNNING"] "" "" "" "".

(** A running job whose [scancel] prints a terminal label. *)
Definition stub_cancel_label : scheduler :=
  stub "209" sbatch_line ["RUNNING"] "" "CANCELLED" "" "".

(** Two tasks of one job, both running: one state per line. *)
Definition two_running : string := "RUNNING" +:+ newline +:+ "RUNNING".

(** The job runs from the first state query on. *)
Definition stub_running : scheduler :=
  stub "209" sbatch_line [] "RUNNING" "" "node07" "node07 has address 10.0.0.7".

(** [sbatch] prints nothing. *)
Definition stub_silent : scheduler :=
  stub EmptyString EmptyString [] "RUNNING" "" "" "".

(** A running job that survives [scancel]. *)
Definition stub_immortal : scheduler :=
  stub "209" sbatch_line [] "RUNNING" "" "" "".

(** The state query prints a byte that is not UTF-8 after RUNNING. *)
Definition stub_garbled : scheduler :=
  stub "209" sbatch_line [] ("RUNNING" +:+ byte 255) "" "" "".

(** A job id with a NUL in it. *)
Definition nul_id : string := "20" +:+ byte 0 +:+ "9".

(** A password database that knows alice only. *)
Definition pw_alice (name : string) : result string :=
  if String.eqb name "alice" then Ok "/home/alice"
  else Raise (KeyError ("getpwnam(): name not found: '" +:+ name +:+ "'")).

(** A table of decimal digits outside ASCII with two of Unicode's rows:
    the Arabic-Indic digits, D9 A0 to D9 A9, and the fullwidth digits,
    EF BC 90 to EF BC 99. *)
#[export] Instance two_rows : PyUnicode := {
  to_decimal c :=
    match Py.codes c with
    | [217; n] => if (160 <=? n) && (n <=? 169) then Some (n - 160) else None
    | [239; 188; n] => if (144 <=? n) && (n <=? 153) then Some (n - 144) else None
    | _ => None
    end;
}.

(** One step of evaluation of the monad's primitives; strings stay
    folded. *)
Ltac run :=
  cbn [bind ret raise lift get_self modify_self emit_event log py_print sleep
       item_last self trace slurm_job_id user_name server_ip
       server_port cmd args env env_str random_port base set_job_id
       set_server_ip set_server_port set_base clear_state truthy negb
       commands count_exec str_of_id app].

(** * Facts about the string primitives *)

Lemma append_assoc (a b c : string) : (a +:+ b) +:+ c = a +:+ (b +:+ c).
Proof.
  induction a as [|x a IH]; [done |].
  change (String x ((a +:+ b) +:+ c) = String x (a +:+ b +:+ c)). by rewrite IH.
Qed.

Lemma startswith_spec p s :
  Py.startswith p s = true <-> exists post, s = p +:+ post.
Proof.
  revert s. induction p as [|a p IH]; intros s; simpl.
  - split; eauto.
  - destruct s as [|b s].
    + split; [discriminate | intros [post Hp]; discriminate].
    + rewrite andb_true_iff, IH, Ascii.eqb_eq. split.
      * intros [-> [post ->]]. eauto.
      * intros [post Hp]. injection Hp as -> ->. eauto.
Qed.

(** [Py.contains] decides [Py.substring]. *)
Lemma contains_spec needle hay :
  Py.contains needle hay = true <-> Py.substring needle hay.
Proof.
  unfold Py.substring. induction hay as [|c hay IH].
  - simpl. rewrite orb_false_r, startswith_spec. split.
    + intros [post Hp]. exists EmptyString, post. exact Hp.
    + intros [[|a pre] [post Hp]]; [eauto | discriminate].
  - cbn [Py.contains]. rewrite orb_true_iff, startswith_spec, IH. split.
    + intros [[post Hp] | (pre & post & Hp)].
      * exists EmptyString, post. exact Hp.
      * exists (String c pre), post. simpl. by rewrite Hp.
    + intros [[|a pre] [post Hp]].
      * left. eauto.
      * right. simpl in Hp. injection Hp as -> ->. eauto.
Qed.

Lemma split_last sep s : exists t, last (Py.split sep s) = Some t.
Proof.
  induction s as [|c s [t IH]]; simpl; [eauto |].
  destruct (Ascii.eqb c sep).
  - exists t. destruct (Py.split sep s); [discriminate | exact IH].
  - destruct (Py.split sep s) as [|w ws]; [discriminate |].
    destruct ws; simpl in *; eauto.
Qed.

(** Every field of a split is free of the separator, and joining the
    fields with the separator gives the string back. *)
Lemma free_of_cons sep c w :
  Ascii.eqb c sep = false -> Py.free_of sep w -> Py.free_of sep (String c w).
Proof.
  intros Hc Hw [|x pre] post Heq.
  - injection Heq as -> _. by rewrite Ascii.eqb_refl in Hc.
  - injection Heq as _ Heq. by apply Hw in Heq.
Qed.

Lemma split_free_of sep s : Forall (Py.free_of sep) (Py.split sep s).
Proof.
  induction s as [|c s IH]; simpl.
  - constructor; [| constructor]. by intros [|x pre] post.
  - destruct (Ascii.eqb c sep) eqn:Hc.
    + constructor; [| exact IH]. by intros [|x pre] post.
    + destruct (Py.split sep s) as [|w ws].
      * constructor; [| constructor]. apply free_of_cons; [done |]. by intros [|x pre] post.
      * inversion IH; subst. constructor; [| done]. by apply free_of_cons.
Qed.

Lemma concat_split sep s :
  String.concat (String sep EmptyString) (Py.split sep s) = s.
Proof.
  induction s as [|c s IH]; [done |]. simpl.
  destruct (split_last sep s) as [t Ht].
  destruct (Py.split sep s) as [|w ws]; [discriminate |].
  destruct (Ascii.eqb c sep) eqn:Hc.
  - apply Ascii.eqb_eq in Hc as ->. rewrite <- IH. reflexivity.
  - rewrite <- IH. destruct ws; reflexivity.
Qed.

Lemma concat_last sep (l : list string) t :
  last l = Some t ->
  String.concat sep l = t \/ exists pre, String.concat sep l = pre +:+ sep +:+ t.
Proof.
  induction l as [|x l IH]; [discriminate |].
  destruct l as [|y l]; [intros [= ->]; by left |].
  intros Hl. right.
  change (String.concat sep (x :: y :: l)) with (x +:+ sep +:+ String.concat sep (y :: l)).
  destruct (IH Hl) as [-> | [pre ->]].
  - by exists x.
  - exists (x +:+ sep +:+ pre). by rewrite !append_assoc.
Qed.

(** The last field holds no separator and ends the string, right after
    the last separator when there is one. *)
Lemma split_last_spec sep s t :
  last (Py.split sep s) = Some t ->
  Py.free_of sep t /\ (s = t \/ exists pre, s = pre +:+ String sep t).
Proof.
  intros Hl. split.
  - pose proof (split_free_of sep s) as Hall. rewrite Forall_forall in Hall.
    apply Hall. apply last_Some in Hl as [l' ->]. set_solver.
  - destruct (concat_last (String sep EmptyString) _ _ Hl) as [He | [pre He]];
      rewrite concat_split in He; eauto.
Qed.

(** A string with a separator in it splits into two fields at least. *)
Lemma split_two sep a b :
  exists x y l, Py.split sep (a +:+ String sep b) = x :: y :: l.
Proof.
  induction a as [|c a (x & y & l & IH)]; simpl.
  - rewrite Ascii.eqb_refl. destruct (split_last sep b) as [t Ht].
    destruct (Py.split sep b) as [|y l]; [discriminate | eauto].
  - rewrite IH. destruct (Ascii.eqb c sep); eauto.
Qed.

(** The primitives on small inputs. *)
Example split_submission_line :
  Py.split " " "Submitted batch job 209" = ["Submitted"; "batch"; "job"; "209"].
Proof. reflexivity. Qed.

Example split_keeps_empty_fields : Py.split " " "a  b " = ["a"; ""; "b"; ""].
Proof. reflexivity. Qed.

Example split_ws_drops_empty_fields :
  Py.split_ws (" a " +:+ tab +:+ newline +:+ "b ") = ["a"; "b"].
Proof. reflexivity. Qed.

Example strip_both_ends :
  Py.strip Py.bytes_isspace (newline +:+ " node07 " +:+ newline) = "node07".
Proof. reflexivity. Qed.

Example int_parses_examples :
  Py.int_parses "209" = true /\ Py.int_parses " -1_000 " = true /\
  Py.int_parses "" = false /\ Py.int_parses "job" = false /\
  Py.int_parses "1__0" = false /\ Py.int_parses "20 9" = false.
Proof. repeat split; reflexivity. Qed.

Example contains_examples :
  Py.contains "RUNNING" "NOT_RUNNING_YET" = true /\
  Py.contains "RUNNING" "PENDING" = false /\
  Py.contains "" "" = true.
Proof. repeat split; reflexivity. Qed.

Example substitute_examples :
  Template.substitute "$who owes $$5 to ${whom}." {["who" := "A"; "whom" := "B"]}
    = Ok "A owes $5 to B." /\
  Template.substitute "$who" ∅ = Raise (KeyError "who") /\
  Template.substitute "100 $" ∅ = Raise ValueError.
Proof. repeat split; vm_compute; reflexivity. Qed.

(** * The submission script *)

Lemma render_sbatch_split c user e c' l :
  Py.split ";" c = e :: c' :: l ->
  render_sbatch c user = Ok (rendered_script e c' user).
Proof.
  intros Hs. unfold render_sbatch. rewrite Hs. cbn [lookup list_lookup].
  vm_compute. reflexivity.
Qed.

Lemma render_sbatch_short c user :
  (forall e c' l, Py.split ";" c <> e :: c' :: l) ->
  render_sbatch c user = Raise IndexError.
Proof.
  intros Hs. unfold render_sbatch.
  destruct (Py.split ";" c) as [|e [|c' l]]; [done | done |]. by destruct (Hs e c' l).
Qed.

(** The command line that [start] builds always has its [;]. *)
Lemma export_cmd_split v (c : list string) :
  exists e c' l,
    Py.split ";" (Py.join " " (("export JPY_API_TOKEN=" +:+ dquote +:+ v +:+ dquote +:+ ";") :: c))
    = e :: c' :: l.
Proof.
  set (a := "export JPY_API_TOKEN=" +:+ dquote +:+ v +:+ dquote).
  assert (Hx : "export JPY_API_TOKEN=" +:+ dquote +:+ v +:+ dquote +:+ ";" = a +:+ ";").
  { unfold a. by rewrite !append_assoc. }
  rewrite Hx. unfold Py.join. destruct c as [|y c].
  - cbn [String.concat]. apply (split_two ";" a EmptyString).
  - cbn [String.concat]. rewrite append_assoc. apply (split_two ";" a).
Qed.

(** * Running the methods *)

Lemma sbatch_not_state_query j : "sbatch" <> squeue_state_cmd j.
Proof. discriminate. Qed.

Lemma node_query_not_state_query j : squeue_node_cmd j <> squeue_state_cmd j.
Proof.
  unfold squeue_node_cmd, squeue_state_cmd. intros Heq.
  apply (inj (String.app _)) in Heq. apply (inj (String.app _)) in Heq. discriminate.
Qed.

Lemma derive_state_running st :
  derive_state st = RUNNING <-> Py.contains "RUNNING" st = true.
Proof.
  unfold derive_state.
  destruct (Py.contains "RUNNING" st), (Py.contains "PENDING" st);
    split; intros; (done || discriminate).
Qed.

Lemma derive_state_pending st :
  derive_state st = PENDING <->
  Py.contains "RUNNING" st = false /\ Py.contains "PENDING" st = true.
Proof.
  unfold derive_state.
  destruct (Py.contains "RUNNING" st), (Py.contains "PENDING" st);
    split; try intros [? ?]; intros; (done || discriminate).
Qed.

Lemma derive_state_terminal st :
  derive_state st = TERMINAL <->
  Py.contains "RUNNING" st = false /\ Py.contains "PENDING" st = false.
Proof.
  unfold derive_state.
  destruct (Py.contains "RUNNING" st), (Py.contains "PENDING" st);
    split; try intros [? ?]; intros; (done || discriminate).
Qed.

Lemma alive_derive_state st :
  alive st = match derive_state st with TERMINAL => false | _ => true end.
Proof.
  unfold alive, derive_state.
  by destruct (Py.contains "RUNNING" st), (Py.contains "PENDING" st).
Qed.

(** * NUL and UTF-8 *)

Lemma has_nul_app a b : Py.has_nul (a +:+ b) = Py.has_nul a || Py.has_nul b.
Proof.
  induction a as [|x a IH]; [done |].
  change (Py.has_nul (String x (a +:+ b)) = Py.has_nul (String x a) || Py.has_nul b).
  cbn [Py.has_nul]. by rewrite IH, orb_assoc.
Qed.

Lemma state_cmd_nul j : Py.has_nul (squeue_state_cmd j) = Py.has_nul j.
Proof.
  unfold squeue_state_cmd. rewrite !has_nul_app.
  change (Py.has_nul "squeue -h -j ") with false.
  change (Py.has_nul " -o %T") with false. by rewrite orb_false_r.
Qed.

Lemma node_cmd_nul j : Py.has_nul (squeue_node_cmd j) = Py.has_nul j.
Proof.
  unfold squeue_node_cmd. rewrite !has_nul_app.
  change (Py.has_nul "squeue -h -j ") with false.
  change (Py.has_nul " -o %N") with false. by rewrite orb_false_r.
Qed.

Lemma cancel_cmd_nul j : Py.has_nul (scancel_cmd j) = Py.has_nul j.
Proof. unfold scancel_cmd. by rewrite has_nul_app. Qed.

Lemma host_cmd_nul node : Py.has_nul (host_cmd node) = Py.has_nul node.
Proof. unfold host_cmd. by rewrite has_nul_app. Qed.

(** Decoding hands the bytes on, and raises nothing but
    [UnicodeDecodeError]. *)
Lemma decode_inv b t : decode b = Ok t -> t = b.
Proof. unfold decode, Py.decode. destruct (Py.utf8_chars b); [by intros [= <-] | done]. Qed.

Lemma decode_raise b e : decode b = Raise e -> e = UnicodeDecodeError.
Proof. unfold decode. destruct (Py.decode b); [done | by intros [= <-]]. Qed.

Lemma run_reply_ok sched c h out : run_reply sched c h = Ok out -> Py.has_nul c = false.
Proof. unfold run_reply. by destruct (Py.has_nul c). Qed.

Lemma run_reply_raise sched c h e :
  run_reply sched c h = Raise e ->
  (e = ValueError /\ Py.has_nul c = true) \/ (e = UnicodeDecodeError /\ Py.has_nul c = false).
Proof.
  unfold run_reply. destruct (Py.has_nul c); [intros [= <-]; by left |].
  destruct (decode _) eqn:Hd; [done |]. cbn [rbind]. intros [= <-].
  right. split; [| done]. by apply decode_raise in Hd.
Qed.

Lemma run_reply_text sched c h :
  Py.has_nul c = false -> prints_text sched c -> exists out, run_reply sched c h = Ok out.
Proof.
  intros Hnul Htext. unfold run_reply. rewrite Hnul.
  destruct (Htext h) as [t ->]. cbn [rbind]. eauto.
Qed.

Lemma node_reply_raise sched j h e :
  node_reply sched j h = Raise e ->
  (e = ValueError /\ Py.has_nul j = true) \/ (e = UnicodeDecodeError /\ Py.has_nul j = false).
Proof.
  unfold node_reply. rewrite node_cmd_nul. destruct (Py.has_nul j); [intros [= <-]; by left |].
  intros Hd%decode_raise. by right.
Qed.

Lemma host_reply_raise sched node h e :
  host_reply sched node h = Raise e ->
  (e = ValueError /\ Py.has_nul node = true)
  \/ (e = UnicodeDecodeError /\ Py.has_nul node = false).
Proof.
  unfold host_reply. rewrite host_cmd_nul. destruct (Py.has_nul node); [intros [= <-]; by left |].
  destruct (decode _) eqn:Hd; [done |]. cbn [rbind]. intros [= <-].
  right. split; [| done]. by apply decode_raise in Hd.
Qed.

(** The address that [host_reply] reads holds no space. *)
Lemma host_reply_free sched node h ip : host_reply sched node h = Ok ip -> Py.free_of " " ip.
Proof.
  unfold host_reply. destruct (Py.has_nul _); [done |].
  destruct (decode _) as [t|]; [| done]. cbn [rbind]. intros [= <-].
  destruct (split_last " " t) as [x Hx]. rewrite Hx. apply (split_last_spec _ _ _ Hx).
Qed.

Example utf8_examples :
  Py.utf8_chars "abc" = Some ["a"; "b"; "c"] /\
  Py.utf8_chars (byte 195 +:+ byte 169 +:+ "t" +:+ byte 195 +:+ byte 169)
    = Some [byte 195 +:+ byte 169; "t"; byte 195 +:+ byte 169] /\
  Py.decode (byte 240 +:+ byte 159 +:+ byte 152 +:+ byte 128)
    = Some (byte 240 +:+ byte 159 +:+ byte 152 +:+ byte 128) /\
  Py.decode ("RUNNING" +:+ byte 255) = None /\
  Py.decode (byte 192 +:+ byte 128) = None /\
  Py.decode (byte 237 +:+ byte 160 +:+ byte 128) = None /\
  Py.decode (byte 244 +:+ byte 144 +:+ byte 128 +:+ byte 128) = None /\
  Py.decode (byte 226 +:+ byte 130) = None.
Proof. repeat split; vm_compute; reflexivity. Qed.

(** [str.strip] drops the no-break space and the line separator;
    [bytes.strip] does not. *)
Example str_strip_examples :
  Py.str_strip (byte 194 +:+ byte 160 +:+ " RUNNING " +:+ byte 28 +:+ byte 226 +:+ byte 128 +:+ byte 168)
    = "RUNNING" /\
  Py.strip Py.bytes_isspace (byte 194 +:+ byte 160 +:+ " RUNNING" +:+ newline)
    = byte 194 +:+ byte 160 +:+ " RUNNING" /\
  Py.str_strip (" a  b" +:+ newline) = "a  b".
Proof. repeat split; vm_compute; reflexivity. Qed.

(** [int] skips TAB to CR and the space, not the separators FS to US,
    and reads digits outside ASCII. *)
Example int_parses_separators :
  Py.int_parses ("209" +:+ byte 28) = false /\
  Py.int_parses (byte 31 +:+ "5") = false /\
  Py.int_parses (tab +:+ "209" +:+ newline) = true /\
  Py.int_parses (byte 217 +:+ byte 163 +:+ "0") = true /\
  Py.int_parses (byte 194 +:+ byte 160 +:+ "7") = true /\
  Py.int_parses (byte 195 +:+ byte 169) = false /\
  Py.int_parses ("7" +:+ byte 255) = false.
Proof. repeat split; vm_compute; reflexivity. Qed.

Section Runs.

Context {B : Type} `{SpawnerBase B} `{PyUnicode}.
Variable sched : scheduler.

(** [run_command] returns its reply, having run the command unless the
    line holds a NUL. *)
Lemma run_command_eq c (m : machine B) :
  run_command sched c m = (run_reply sched c (trace m), ran c m).
Proof.
  unfold run_command, run_reply, ran, bind, popen, lift.
  destruct (Py.has_nul c); [reflexivity |].
  destruct (decode _); reflexivity.
Qed.

Lemma check_state_present (m : machine B) j :
  slurm_job_id (self m) = Some j -> j <> EmptyString ->
  _check_slurm_job_state sched m =
    match state_reply sched j (trace m) with
    | Ok out => (Ok out, Machine (self m) (checked (user_name (self m)) j out (trace m)))
    | Raise e => (Raise e, ran (squeue_state_cmd j) m)
    end.
Proof.
  intros Hj Hne. unfold _check_slurm_job_state. run. rewrite Hj.
  destruct j as [|c r]; [done |]. unfold bind at 1. rewrite run_command_eq.
  unfold state_reply. destruct (run_reply _ _ _) as [out|e] eqn:Hr; [| reflexivity].
  apply run_reply_ok in Hr. unfold ran. rewrite Hr. reflexivity.
Qed.

Lemma check_state_ok (m : machine B) j out :
  slurm_job_id (self m) = Some j -> j <> EmptyString ->
  state_reply sched j (trace m) = Ok out ->
  _check_slurm_job_state sched m =
    (Ok out, Machine (self m) (checked (user_name (self m)) j out (trace m))).
Proof. intros Hj Hne Hr. by rewrite (check_state_present m j), Hr. Qed.

Lemma check_state_absent (m : machine B) :
  truthy (slurm_job_id (self m)) = false ->
  _check_slurm_job_state sched m = (Ok EmptyString, m).
Proof.
  intros Hj. unfold _check_slurm_job_state. run.
  destruct (slurm_job_id (self m)) as [[|c r]|]; try done.
Qed.

Lemma start_loop_running n st (m : machine B) :
  derive_state st = RUNNING ->
  start_loop sched (S n) st m =
    (Ok Broke, Machine (self m) (Log INFO ("job_state is " +:+ st) :: trace m)).
Proof.
  intros Hst%derive_state_running. cbn [start_loop]. run. rewrite Hst. reflexivity.
Qed.

Lemma start_loop_terminal n st (m : machine B) :
  derive_state st = TERMINAL ->
  start_loop sched (S n) st m =
    (Ok (Returned 1),
     Machine (self m)
       (Log INFO ("Job " +:+ str_of_id (slurm_job_id (self m)) +:+ " failed to start!")
        :: Log INFO ("job_state is " +:+ st) :: trace m)).
Proof.
  intros [Hr Hp]%derive_state_terminal. cbn [start_loop]. run. rewrite Hr, Hp.
  run. reflexivity.
Qed.

(** One round of the loop on PENDING: the state is queried again. *)
Lemma start_loop_pending_eq n st (m : machine B) :
  derive_state st = PENDING ->
  start_loop sched (S n) st m =
    (let! job_state' := _check_slurm_job_state sched in
     sleep 1 ;;; start_loop sched n job_state')
      (Machine (self m) (Log INFO ("job_state is " +:+ st) :: trace m)).
Proof.
  intros [Hr Hp]%derive_state_pending. cbn [start_loop]. run. rewrite Hr, Hp. reflexivity.
Qed.

Lemma start_loop_pending n st (m : machine B) j out :
  slurm_job_id (self m) = Some j -> j <> EmptyString ->
  derive_state st = PENDING ->
  state_reply sched j (Log INFO ("job_state is " +:+ st) :: trace m) = Ok out ->
  exists tr,
    start_loop sched (S n) st m = start_loop sched n out (Machine (self m) tr) /\
    count_exec (squeue_state_cmd j) tr = S (count_exec (squeue_state_cmd j) (trace m)) /\
    (forall c, c <> squeue_state_cmd j -> count_exec c tr = count_exec c (trace m)) /\
    commands tr = commands (trace m) ++ [squeue_state_cmd j].
Proof.
  intros Hj Hne Hst Hout. eexists. split_and!.
  - rewrite start_loop_pending_eq by done. unfold bind at 1.
    rewrite (check_state_ok _ j out) by done. run. reflexivity.
  - unfold checked. run. by rewrite String.eqb_refl.
  - intros c Hc. unfold checked. run. apply not_eq_sym, String.eqb_neq in Hc. by rewrite Hc.
  - done.
Qed.

Lemma start_loop_pending_steps j k : forall n st (m : machine B),
  slurm_job_id (self m) = Some j -> j <> EmptyString ->
  derive_state st = PENDING ->
  answers sched j (count_exec (squeue_state_cmd j) (trace m))
                  (count_exec (squeue_state_cmd j) (trace m) + k) PENDING ->
  (forall h, count_exec (squeue_state_cmd j) h = count_exec (squeue_state_cmd j) (trace m) + k ->
             exists out, state_reply sched j h = Ok out) ->
  exists out h tr,
    state_reply sched j h = Ok out /\
    count_exec (squeue_state_cmd j) h = count_exec (squeue_state_cmd j) (trace m) + k /\
    start_loop sched (S k + n) st m = start_loop sched n out (Machine (self m) tr) /\
    count_exec (squeue_state_cmd j) tr = count_exec (squeue_state_cmd j) (trace m) + S k /\
    (forall c, c <> squeue_state_cmd j -> count_exec c tr = count_exec c (trace m)) /\
    commands tr = commands (trace m) ++ replicate (S k) (squeue_state_cmd j).
Proof.
  induction k as [|k IH]; intros n st m Hj Hne Hst Hans Hread.
  - set (h0 := Log INFO ("job_state is " +:+ st) :: trace m).
    destruct (Hread h0) as [out Hout]; [subst h0; run; lia |].
    destruct (start_loop_pending n st m j out Hj Hne Hst Hout) as (tr & Heq & Hc & Ho & Hcmd).
    exists out, h0, tr. subst h0. run. split_and!; [done | lia | done | lia | done | done].
  - set (h0 := Log INFO ("job_state is " +:+ st) :: trace m).
    destruct (Hans h0) as (out0 & Hout0 & Hst0); [subst h0; run; lia |].
    destruct (start_loop_pending (S k + n) st m j out0 Hj Hne Hst Hout0)
      as (tr & Heq & Hc & Ho & Hcmd).
    destruct (IH n out0 (Machine (self m) tr)) as (out & h & tr' & Hout & Hh & Heq' & Hc' & Ho' & Hcmd').
    + done.
    + done.
    + done.
    + intros h Hh. apply Hans. cbn [trace] in Hh. lia.
    + intros h Hh. apply Hread. cbn [trace] in Hh. lia.
    + exists out, h, tr'. cbn [trace self] in *. split_and!.
      * done.
      * lia.
      * rewrite <- Heq'. exact Heq.
      * lia.
      * intros c Hc0. rewrite Ho' by done. by apply Ho.
      * rewrite Hcmd', Hcmd, <- app_assoc. done.
Qed.

Lemma item_last_split (m : machine B) s :
  item_last (Py.split " " s) m = (Ok (default EmptyString (last (Py.split " " s))), m).
Proof.
  unfold item_last. destruct (split_last " " s) as [t ->]. reflexivity.
Qed.

(** The three ways through [get_slurm_job_info] for a string. *)
Lemma get_slurm_job_info_some (m : machine B) j :
  get_slurm_job_info sched (Some j) m =
    match node_reply sched j (trace m) with
    | Raise e => (Raise e, ran (squeue_node_cmd j) m)
    | Ok node =>
        let m1 := Machine (self m) (Exec (squeue_node_cmd j) EmptyString :: trace m) in
        match host_reply sched node (trace m1) with
        | Raise e => (Raise e, ran (host_cmd node) m1)
        | Ok ip => (Ok ip, Machine (self m) (Exec (host_cmd node) EmptyString :: trace m1))
        end
    end.
Proof.
  unfold get_slurm_job_info, node_reply, host_reply, ran, bind, popen, lift.
  destruct (Py.has_nul (squeue_node_cmd j)); [reflexivity |].
  destruct (decode _) as [node|e]; [| reflexivity]. cbn [trace self].
  destruct (Py.has_nul (host_cmd node)); [reflexivity |].
  destruct (decode _) as [out|e]; [| reflexivity]. cbn [rbind].
  rewrite item_last_split. reflexivity.
Qed.

Lemma after_loop_returned (m : machine B) v :
  after_loop sched (Returned v) m = (Ok (Some v), m).
Proof. reflexivity. Qed.

Lemma after_loop_eq r (m : machine B) :
  r = Broke \/ r = Exhausted ->
  after_loop sched r m =
    (let! notebook_ip := get_slurm_job_info sched (slurm_job_id (self m)) in
     modify_self (set_server_ip notebook_ip) ;;;
     log INFO ("Notebook server ip is " +:+ notebook_ip) ;;;
     ret None) m.
Proof. by intros [-> | ->]. Qed.

Lemma after_loop_resolves r (m : machine B) j node ip :
  r = Broke \/ r = Exhausted ->
  slurm_job_id (self m) = Some j ->
  node_reply sched j (trace m) = Ok node ->
  host_reply sched node (Exec (squeue_node_cmd j) EmptyString :: trace m) = Ok ip ->
  after_loop sched r m =
    (Ok None,
     Machine (set_server_ip ip (self m))
       (Log INFO ("Notebook server ip is " +:+ ip)
        :: Exec (host_cmd node) EmptyString
        :: Exec (squeue_node_cmd j) EmptyString :: trace m)).
Proof.
  intros Hr Hj Hn Hh. rewrite after_loop_eq by done. rewrite Hj. unfold bind at 1.
  rewrite get_slurm_job_info_some, Hn. cbn zeta. cbn [trace]. rewrite Hh. reflexivity.
Qed.

(** ** What a method can change, whatever way it ends *)

Lemma snd_bind {A C} (c : M B A) (k : A -> M B C) (m : machine B) :
  snd (bind c k m) = match c m with
                     | (Ok a, m1) => snd (k a m1)
                     | (Raise _, m1) => m1
                     end.
Proof. unfold bind. by destruct (c m) as [[a|e] m1]. Qed.

Lemma extends_refl (m : machine B) : extends m m.
Proof. split; [done |]. by exists []. Qed.

Lemma extends_trans (m1 m2 m3 : machine B) : extends m1 m2 -> extends m2 m3 -> extends m1 m3.
Proof.
  intros [Hs1 [l1 Ht1]] [Hs2 [l2 Ht2]]. split; [congruence |].
  exists (l2 ++ l1). by rewrite Ht2, Ht1, app_assoc.
Qed.

Lemma extends_cons (m : machine B) e : extends m (Machine (self m) (e :: trace m)).
Proof. split; [done |]. by exists [e]. Qed.

Lemma ran_extends c (m : machine B) : extends m (ran c m).
Proof. unfold ran. destruct (Py.has_nul c); [apply extends_refl | apply extends_cons]. Qed.

Lemma check_state_extends (m : machine B) :
  extends m (snd (_check_slurm_job_state sched m)).
Proof.
  destruct (slurm_job_id (self m)) as [[|c r]|] eqn:Hj.
  - rewrite check_state_absent by (by rewrite Hj). apply extends_refl.
  - rewrite (check_state_present m (String c r)) by done.
    destruct (state_reply _ _ _); [| apply ran_extends].
    split; [done |]. by eexists [_; _].
  - rewrite check_state_absent by (by rewrite Hj). apply extends_refl.
Qed.

Lemma start_loop_extends n : forall st (m : machine B),
  extends m (snd (start_loop sched n st m)).
Proof.
  induction n as [|n IH]; intros st m; [apply extends_refl |].
  destruct (derive_state st) eqn:Hst.
  - rewrite start_loop_running by done. apply extends_cons.
  - rewrite start_loop_pending_eq by done. unfold bind at 1.
    set (m1 := Machine (self m) (Log INFO ("job_state is " +:+ st) :: trace m)).
    pose proof (check_state_extends m1) as Hc.
    destruct (_check_slurm_job_state sched m1) as [[out|e] m2]; cbn [snd] in *.
    + run. apply (extends_trans _ m1); [apply extends_cons |].
      apply (extends_trans _ m2); [done |].
      apply (extends_trans _ (Machine (self m2) (Sleep 1 :: trace m2)));
        [apply extends_cons | apply IH].
    + apply (extends_trans _ m1); [apply extends_cons | done].
  - rewrite start_loop_terminal by done. split; [done |]. by eexists [_; _].
Qed.

Lemma get_slurm_job_info_extends jobid (m : machine B) :
  extends m (snd (get_slurm_job_info sched jobid m)).
Proof.
  destruct jobid as [j|]; [| apply extends_refl].
  rewrite get_slurm_job_info_some.
  destruct (node_reply _ _ _) as [node|e]; [| apply ran_extends]. cbn zeta.
  destruct (host_reply _ _ _) as [ip|e].
  - split; [done |]. by eexists [_; _].
  - eapply extends_trans; [| apply ran_extends]. apply extends_cons.
Qed.

(** What follows the loop only ever stores the address. *)
Lemma after_loop_frame r (m : machine B) :
  let m' := snd (after_loop sched r m) in
  (self m' = self m \/ exists ip, self m' = set_server_ip ip (self m)) /\
  exists l, trace m' = l ++ trace m.
Proof.
  cbn zeta. destruct r as [| |v]; [| | split; [by left | by exists []]].
  all: rewrite after_loop_eq by auto; rewrite snd_bind;
    pose proof (get_slurm_job_info_extends (slurm_job_id (self m)) m) as [Hs [l Hl]];
    destruct (get_slurm_job_info sched (slurm_job_id (self m)) m) as [[ip|e] m1];
    cbn [snd] in *; run.
  all: try (split; [by left | by exists l]).
  all: split; [right; exists ip; by rewrite Hs
              | exists (Log INFO ("Notebook server ip is " +:+ ip) :: l); by rewrite Hl].
Qed.

Lemma await_job_frame (m : machine B) :
  let m' := snd (await_job sched m) in
  (self m' = self m \/ exists ip, self m' = set_server_ip ip (self m)) /\
  exists l, trace m' = l ++ trace m.
Proof.
  cbn zeta. unfold await_job. rewrite snd_bind.
  pose proof (check_state_extends m) as [Hs1 [l1 Hl1]].
  destruct (_check_slurm_job_state sched m) as [[out|e] m1]; cbn [snd] in *;
    [| split; [by left | by exists l1]].
  rewrite snd_bind.
  pose proof (start_loop_extends 15 out m1) as [Hs2 [l2 Hl2]].
  destruct (start_loop sched 15 out m1) as [[r|e] m2]; cbn [snd] in *;
    [| split; [left; congruence | exists (l2 ++ l1); by rewrite Hl2, Hl1, app_assoc]].
  destruct (after_loop_frame r m2) as [Hs3 [l3 Hl3]]. cbn zeta in *. split.
  - destruct Hs3 as [Hs3 | [ip Hs3]]; [left; congruence |].
    right. exists ip. by rewrite Hs3, Hs2, Hs1.
  - exists (l3 ++ l2 ++ l1). by rewrite Hl3, Hl2, Hl1, !app_assoc.
Qed.

Lemma await_job_keeps_id (m : machine B) :
  slurm_job_id (self (snd (await_job sched m))) = slurm_job_id (self m).
Proof.
  destruct (await_job_frame m) as [[-> | [ip ->]] _]; reflexivity.
Qed.

(** With a job id free of NUL the state query is run, however the wait
    ends. *)
Lemma await_job_queries (m : machine B) j :
  slurm_job_id (self m) = Some j -> j <> EmptyString -> Py.has_nul j = false ->
  In (Exec (squeue_state_cmd j) EmptyString) (trace (snd (await_job sched m))).
Proof.
  intros Hj Hne Hnul. unfold await_job. rewrite snd_bind.
  rewrite (check_state_present m j) by done.
  destruct (state_reply sched j (trace m)) as [out|e].
  - rewrite snd_bind.
    set (m1 := Machine (self m) (checked (user_name (self m)) j out (trace m))).
    pose proof (start_loop_extends 15 out m1) as [_ [l2 Hl2]].
    destruct (start_loop sched 15 out m1) as [[r|e] m2]; cbn [snd] in *.
    + destruct (after_loop_frame r m2) as [_ [l3 Hl3]]. cbn zeta in Hl3.
      rewrite Hl3, Hl2. subst m1. unfold checked. cbn [trace].
      rewrite !in_app_iff. right. right. right. by left.
    + rewrite Hl2. subst m1. unfold checked. cbn [trace].
      rewrite in_app_iff. right. right. by left.
  - cbn [snd]. unfold ran. rewrite state_cmd_nul, Hnul. by left.
Qed.

(** With a NUL in the job id the wait ends at once with [ValueError]
    and runs nothing. *)
Lemma await_job_nul (m : machine B) j :
  slurm_job_id (self m) = Some j -> Py.has_nul j = true ->
  await_job sched m = (Raise ValueError, m).
Proof.
  intros Hj Hnul. assert (Hne : j <> EmptyString) by (by intros ->).
  unfold await_job. unfold bind at 1. rewrite (check_state_present m j) by done.
  unfold state_reply, run_reply, ran. by rewrite state_cmd_nul, Hnul.
Qed.

(** ** [start] up to the stored job id *)

Lemma start_submit_at (s : spawner B) tr0 v e c' l :
  env s !! "JPY_API_TOKEN" = Some v ->
  Py.split ";" (Py.join " " (("export JPY_API_TOKEN=" +:+ dquote +:+ v +:+ dquote +:+ ";")
                             :: cmd s ++ args s)) = e :: c' :: l ->
  let script := rendered_script e c' (user_name s) in
  let h := Printed ("Submitting *****{" +:+ newline +:+ script +:+ newline +:+ "}*****")
           :: Log INFO ("Spawning " +:+ Py.join " " (cmd s ++ args s))
           :: Log DEBUG ("Env: " +:+ env_str s) :: tr0 in
  let raw := sched h "sbatch" script in
  start sched (Machine s tr0) =
    match parse_job_id raw with
    | Ok tok =>
        await_job sched
          (Machine (set_job_id (Some tok) (set_server_port (random_port s) s))
             ((if Py.int_parses tok then []
               else [Log INFO ("sbatch returned this at the end of their string: " +:+ tok)])
              ++ Log DEBUG ("Stdout of trying to call run_jupyterhub_singleuser(): "
                            +:+ Py.strip Py.bytes_isspace raw)
              :: Exec "sbatch" script :: h))
    | Raise e =>
        (Raise e, Machine (set_server_port (random_port s) s) (Exec "sbatch" script :: h))
    end.
Proof.
  intros Hv Hsplit.
  pose proof (render_sbatch_split _ (user_name s) _ _ _ Hsplit) as Hrender.
  cbn zeta. unfold start at 1. run. rewrite Hv. run.
  unfold run_jupyterhub_singleuser, _run_jupyterhub_singleuser.
  rewrite Hrender. run. unfold popen at 1. change (Py.has_nul "sbatch") with false.
  cbn iota. run. unfold parse_job_id.
  destruct (decode _) as [t|e0] eqn:Hd; [| reflexivity].
  apply decode_inv in Hd as ->. cbn [rbind]. run. unfold bind at 1.
  rewrite item_last_split. run.
  match goal with |- context [Py.int_parses ?t] => destruct (Py.int_parses t) end;
    run; reflexivity.
Qed.

Lemma start_submit (s : spawner B) tr0 v :
  env s !! "JPY_API_TOKEN" = Some v ->
  exists e c',
    let script := rendered_script e c' (user_name s) in
    let h := Printed ("Submitting *****{" +:+ newline +:+ script +:+ newline +:+ "}*****")
             :: Log INFO ("Spawning " +:+ Py.join " " (cmd s ++ args s))
             :: Log DEBUG ("Env: " +:+ env_str s) :: tr0 in
    let raw := sched h "sbatch" script in
    commands h = commands tr0 /\
    start sched (Machine s tr0) =
      match parse_job_id raw with
      | Ok tok =>
          await_job sched
            (Machine (set_job_id (Some tok) (set_server_port (random_port s) s))
               ((if Py.int_parses tok then []
                 else [Log INFO ("sbatch returned this at the end of their string: " +:+ tok)])
                ++ Log DEBUG ("Stdout of trying to call run_jupyterhub_singleuser(): "
                              +:+ Py.strip Py.bytes_isspace raw)
                :: Exec "sbatch" script :: h))
      | Raise e =>
          (Raise e, Machine (set_server_port (random_port s) s) (Exec "sbatch" script :: h))
      end.
Proof.
  intros Hv. destruct (export_cmd_split v (cmd s ++ args s)) as (e & c' & l & Hsplit).
  exists e, c'. cbn zeta. split; [reflexivity |].
  exact (start_submit_at s tr0 v e c' l Hv Hsplit).
Qed.

(** Without JPY_API_TOKEN in the environment [start] raises before it
    submits anything. *)
Lemma start_no_token (s : spawner B) tr0 :
  env s !! "JPY_API_TOKEN" = None ->
  exists m',
    start sched (Machine s tr0) = (Raise (KeyError "JPY_API_TOKEN"), m') /\
    commands (trace m') = commands tr0.
Proof. intros Hv. unfold start. run. rewrite Hv. run. eauto. Qed.

Lemma start_submitted (s : spawner B) tr0 v tok :
  env s !! "JPY_API_TOKEN" = Some v -> submits sched tok ->
  exists tr1,
    start sched (Machine s tr0) =
      await_job sched (Machine (set_job_id (Some tok) (set_server_port (random_port s) s)) tr1) /\
    commands tr1 = commands tr0 ++ ["sbatch"] /\
    (forall c, c <> "sbatch" -> count_exec c tr1 = count_exec c tr0).
Proof.
  intros Hv Hsub. destruct (start_submit s tr0 v Hv) as (e & c' & _ & Hstart).
  cbn zeta in Hstart. rewrite (Hsub _ _) in Hstart.
  eexists. split; [exact Hstart |].
  destruct (Py.int_parses tok); run; (split; [done |]);
    intros c Hc; apply not_eq_sym, String.eqb_neq in Hc; by rewrite Hc.
Qed.

End Runs.

(** * [start] while the job is pending *)

Section Waiting.

Context {B : Type} `{SpawnerBase B} `{PyUnicode}.
Variable sched : scheduler.

(** After [k] PENDING answers and one more answer that can be read,
    [start] is in its loop with [15 - k] rounds left. *)
Lemma await_job_pending (m : machine B) j k :
  slurm_job_id (self m) = Some j -> j <> EmptyString -> k <= 15 ->
  answers sched j (count_exec (squeue_state_cmd j) (trace m))
                  (count_exec (squeue_state_cmd j) (trace m) + k) PENDING ->
  (forall h, count_exec (squeue_state_cmd j) h = count_exec (squeue_state_cmd j) (trace m) + k ->
             exists out, state_reply sched j h = Ok out) ->
  exists out h tr,
    state_reply sched j h = Ok out /\
    count_exec (squeue_state_cmd j) h = count_exec (squeue_state_cmd j) (trace m) + k /\
    await_job sched m =
      (let! r := start_loop sched (15 - k) out in after_loop sched r) (Machine (self m) tr) /\
    count_exec (squeue_state_cmd j) tr = count_exec (squeue_state_cmd j) (trace m) + S k /\
    (forall c, c <> squeue_state_cmd j -> count_exec c tr = count_exec c (trace m)) /\
    commands tr = commands (trace m) ++ replicate (S k) (squeue_state_cmd j).
Proof.
  intros Hj Hne Hk Hans Hread.
  assert (Hfirst : forall out, state_reply sched j (trace m) = Ok out ->
    await_job sched m =
      (let! r := start_loop sched 15 out in after_loop sched r)
        (Machine (self m) (checked (user_name (self m)) j out (trace m)))).
  { intros out Hout. unfold await_job. unfold bind at 1.
    by rewrite (check_state_ok sched m j out). }
  destruct k as [|k].
  - destruct (Hread (trace m)) as [out Hout]; [lia |].
    exists out, (trace m), (checked (user_name (self m)) j out (trace m)).
    split_and!; [done | lia | by apply Hfirst | | | done].
    + unfold checked. run. rewrite String.eqb_refl. lia.
    + intros c Hc. unfold checked. run.
      apply not_eq_sym, String.eqb_neq in Hc. by rewrite Hc.
  - destruct (Hans (trace m)) as (out0 & Hout0 & Hst0); [lia |].
    set (m1 := Machine (self m) (checked (user_name (self m)) j out0 (trace m))).
    assert (Hc1 : count_exec (squeue_state_cmd j) (trace m1) = S (count_exec (squeue_state_cmd j) (trace m))).
    { subst m1. unfold checked. run. by rewrite String.eqb_refl. }
    destruct (start_loop_pending_steps sched j k (15 - S k) out0 m1)
      as (out & h & tr & Hout & Hh & Heq & Hc & Ho & Hcmd).
    + done.
    + done.
    + done.
    + intros h Hh. apply Hans. lia.
    + intros h Hh. apply Hread. lia.
    + exists out, h, tr.
      replace (S k + (15 - S k)) with 15 in Heq by lia.
      split_and!.
      * done.
      * lia.
      * rewrite (Hfirst out0 Hout0). fold m1. cbn [self] in Heq. unfold bind. by rewrite Heq.
      * lia.
      * intros c Hc0. rewrite (Ho c Hc0). subst m1. unfold checked. run.
        apply not_eq_sym, String.eqb_neq in Hc0. by rewrite Hc0.
      * rewrite Hcmd. subst m1. unfold checked. run.
        rewrite <- app_assoc. done.
Qed.

(** An answer of state [st] is an answer that can be read. *)
Lemma answers_readable j lo st :
  answers sched j lo (S lo) st ->
  forall h, count_exec (squeue_state_cmd j) h = lo -> exists out, state_reply sched j h = Ok out.
Proof.
  intros Hans h Hh. destruct (Hans h) as (out & Hout & _); [lia | eauto].
Qed.

Lemma start_running_after (s : spawner B) tr0 v tok k node ip :
  env s !! "JPY_API_TOKEN" = Some v -> submits sched tok -> tok <> EmptyString ->
  k < 15 ->
  answers sched tok (count_exec (squeue_state_cmd tok) tr0)
                    (count_exec (squeue_state_cmd tok) tr0 + k) PENDING ->
  answers sched tok (count_exec (squeue_state_cmd tok) tr0 + k)
                    (count_exec (squeue_state_cmd tok) tr0 + S k) RUNNING ->
  names_node sched tok node -> resolves sched node ip ->
  exists m',
    start sched (Machine s tr0) = (Ok None, m') /\
    self m' = set_server_ip ip (set_job_id (Some tok) (set_server_port (random_port s) s)) /\
    commands (trace m') =
      commands tr0 ++ "sbatch" :: replicate (S k) (squeue_state_cmd tok)
                   ++ [squeue_node_cmd tok; host_cmd node] /\
    count_exec (squeue_state_cmd tok) (trace m') = count_exec (squeue_state_cmd tok) tr0 + S k /\
    count_exec (squeue_node_cmd tok) (trace m') = count_exec (squeue_node_cmd tok) tr0 + 1.
Proof.
  intros Hv Hsub Hne Hk Hpend Hrun Hnode Hhost.
  destruct (start_submitted sched s tr0 v tok Hv Hsub) as (tr1 & Hstart & Hcmd1 & Hc1).
  set (s1 := set_job_id (Some tok) (set_server_port (random_port s) s)) in *.
  pose proof (Hc1 _ (not_eq_sym (sbatch_not_state_query tok))) as Hq1.
  destruct (await_job_pending (Machine s1 tr1) tok k)
    as (out & h & tr & Hout & Hh & Heq & Hc & Ho & Hcmd).
  { done. } { done. } { lia. } { cbn [trace]. by rewrite Hq1. }
  { cbn [trace]. rewrite Hq1. apply (answers_readable tok _ RUNNING).
    by rewrite <- Nat.add_succ_r. }
  cbn [trace self] in *. rewrite Hq1 in *.
  destruct (Hrun h) as (out' & Hout' & Hst); [lia |].
  rewrite Hout in Hout'. injection Hout' as <-.
  destruct (15 - k) as [|n] eqn:Hn; [lia |].
  unfold bind in Heq. rewrite start_loop_running in Heq by done.
  cbn [self trace] in Heq.
  rewrite (after_loop_resolves sched Broke _ tok node ip) in Heq
    by (auto; apply Hnode || apply Hhost).
  cbn [self trace] in Heq.
  eexists. split; [by rewrite Hstart, Heq |]. run.
  rewrite Hc.
  assert (String.eqb (squeue_node_cmd tok) (squeue_state_cmd tok) = false) as ->.
  { apply String.eqb_neq, node_query_not_state_query. }
  rewrite String.eqb_refl.
  change (String.eqb (host_cmd node) (squeue_state_cmd tok)) with false.
  change (String.eqb (host_cmd node) (squeue_node_cmd tok)) with false.
  rewrite (Ho _ (node_query_not_state_query tok)).
  rewrite (Hc1 (squeue_node_cmd tok)) by discriminate.
  split_and!; [done | | lia | lia].
  rewrite Hcmd, Hcmd1, <- !app_assoc. done.
Qed.

Lemma start_failed_after (s : spawner B) tr0 v tok k :
  env s !! "JPY_API_TOKEN" = Some v -> submits sched tok -> tok <> EmptyString ->
  k < 15 ->
  answers sched tok (count_exec (squeue_state_cmd tok) tr0)
                    (count_exec (squeue_state_cmd tok) tr0 + k) PENDING ->
  answers sched tok (count_exec (squeue_state_cmd tok) tr0 + k)
                    (count_exec (squeue_state_cmd tok) tr0 + S k) TERMINAL ->
  exists m',
    start sched (Machine s tr0) = (Ok (Some 1), m') /\
    self m' = set_job_id (Some tok) (set_server_port (random_port s) s) /\
    commands (trace m') =
      commands tr0 ++ "sbatch" :: replicate (S k) (squeue_state_cmd tok) /\
    count_exec (squeue_state_cmd tok) (trace m')
      = count_exec (squeue_state_cmd tok) tr0 + S k.
Proof.
  intros Hv Hsub Hne Hk Hpend Hterm.
  destruct (start_submitted sched s tr0 v tok Hv Hsub) as (tr1 & Hstart & Hcmd1 & Hc1).
  set (s1 := set_job_id (Some tok) (set_server_port (random_port s) s)) in *.
  pose proof (Hc1 _ (not_eq_sym (sbatch_not_state_query tok))) as Hq1.
  destruct (await_job_pending (Machine s1 tr1) tok k)
    as (out & h & tr & Hout & Hh & Heq & Hc & Ho & Hcmd).
  { done. } { done. } { lia. } { cbn [trace]. by rewrite Hq1. }
  { cbn [trace]. rewrite Hq1. apply (answers_readable tok _ TERMINAL).
    by rewrite <- Nat.add_succ_r. }
  cbn [trace self] in *. rewrite Hq1 in *.
  destruct (Hterm h) as (out' & Hout' & Hst); [lia |].
  rewrite Hout in Hout'. injection Hout' as <-.
  destruct (15 - k) as [|n] eqn:Hn; [lia |].
  unfold bind in Heq. rewrite start_loop_terminal in Heq by done.
  rewrite after_loop_returned in Heq. cbn [self trace] in Heq.
  eexists. split; [by rewrite Hstart, Heq |]. run.
  split_and!; [done | | exact Hc]. rewrite Hcmd, Hcmd1, <- !app_assoc. done.
Qed.

Lemma start_exhausted (s : spawner B) tr0 v tok node ip :
  env s !! "JPY_API_TOKEN" = Some v -> submits sched tok -> tok <> EmptyString ->
  answers sched tok (count_exec (squeue_state_cmd tok) tr0)
                    (count_exec (squeue_state_cmd tok) tr0 + 15) PENDING ->
  (forall h, count_exec (squeue_state_cmd tok) h = count_exec (squeue_state_cmd tok) tr0 + 15 ->
             exists out, state_reply sched tok h = Ok out) ->
  names_node sched tok node -> resolves sched node ip ->
  exists m',
    start sched (Machine s tr0) = (Ok None, m') /\
    self m' = set_server_ip ip (set_job_id (Some tok) (set_server_port (random_port s) s)) /\
    commands (trace m') =
      commands tr0 ++ "sbatch" :: replicate 16 (squeue_state_cmd tok)
                   ++ [squeue_node_cmd tok; host_cmd node] /\
    count_exec (squeue_state_cmd tok) (trace m') = count_exec (squeue_state_cmd tok) tr0 + 16.
Proof.
  intros Hv Hsub Hne Hpend Hread Hnode Hhost.
  destruct (start_submitted sched s tr0 v tok Hv Hsub) as (tr1 & Hstart & Hcmd1 & Hc1).
  set (s1 := set_job_id (Some tok) (set_server_port (random_port s) s)) in *.
  pose proof (Hc1 _ (not_eq_sym (sbatch_not_state_query tok))) as Hq1.
  destruct (await_job_pending (Machine s1 tr1) tok 15)
    as (out & h & tr & Hout & Hh & Heq & Hc & Ho & Hcmd).
  { done. } { done. } { lia. } { cbn [trace]. by rewrite Hq1. }
  { cbn [trace]. by rewrite Hq1. }
  cbn [trace self] in *. rewrite Hq1 in *.
  change (15 - 15) with 0 in Heq. unfold bind in Heq. cbn [start_loop ret] in Heq.
  rewrite (after_loop_resolves sched Exhausted _ tok node ip) in Heq
    by (auto; apply Hnode || apply Hhost).
  cbn [self trace] in Heq.
  eexists. split; [by rewrite Hstart, Heq |]. run.
  rewrite Hc.
  assert (String.eqb (squeue_node_cmd tok) (squeue_state_cmd tok) = false) as ->.
  { apply String.eqb_neq, node_query_not_state_query. }
  change (String.eqb (host_cmd node) (squeue_state_cmd tok)) with false.
  split_and!; [done | | lia].
  rewrite Hcmd, Hcmd1, <- !app_assoc. done.
Qed.

Lemma count_ran_other c q (m : machine B) :
  c <> q -> count_exec q (trace (ran c m)) = count_exec q (trace m).
Proof.
  intros Hc. unfold ran. destruct (Py.has_nul c); [done |]. run.
  apply String.eqb_neq in Hc. by rewrite Hc.
Qed.

Lemma host_not_state_query node j : host_cmd node <> squeue_state_cmd j.
Proof. discriminate. Qed.

(** What follows the loop runs no state query and keeps the job id; it
    raises nothing but the two exceptions of a command. *)
Lemma after_loop_no_state_query r (m : machine B) j :
  slurm_job_id (self m) = Some j ->
  exists res m',
    after_loop sched r m = (res, m') /\
    count_exec (squeue_state_cmd j) (trace m') = count_exec (squeue_state_cmd j) (trace m) /\
    slurm_job_id (self m') = Some j /\
    (forall e, res = Raise e -> e = ValueError \/ e = UnicodeDecodeError).
Proof.
  intros Hj. destruct r as [| |v]; [| | by eexists _, _].
  all: rewrite after_loop_eq by auto; rewrite Hj; unfold bind at 1;
    rewrite get_slurm_job_info_some;
    destruct (node_reply sched j (trace m)) as [node|e] eqn:Hn.
  all: try (eexists _, _; split; [reflexivity |]; split_and!;
            [apply count_ran_other, node_query_not_state_query
            |unfold ran; by destruct (Py.has_nul _)
            |intros e' [= <-]; apply node_reply_raise in Hn; tauto]).
  all: cbn zeta; cbn [trace];
    destruct (host_reply sched node _) as [ip|e] eqn:Hh.
  all: try (eexists _, _; split; [reflexivity |]; split_and!;
            [rewrite count_ran_other by apply host_not_state_query; run;
             by rewrite (proj2 (String.eqb_neq _ _) (node_query_not_state_query j))
            |unfold ran; by destruct (Py.has_nul _)
            |intros e' [= <-]; apply host_reply_raise in Hh; tauto]).
  all: run; eexists _, _; split; [reflexivity |]; split_and!; [| done | done].
  all: run; change (String.eqb (host_cmd node) (squeue_state_cmd j)) with false;
    by rewrite (proj2 (String.eqb_neq _ _) (node_query_not_state_query j)).
Qed.

(** The last round of the loop on PENDING: one more state query, and
    whatever it prints is not looked at. *)
Lemma last_round_pending (m : machine B) j st :
  slurm_job_id (self m) = Some j -> j <> EmptyString -> Py.has_nul j = false ->
  derive_state st = PENDING ->
  exists res m',
    (let! r := start_loop sched 1 st in after_loop sched r) m = (res, m') /\
    count_exec (squeue_state_cmd j) (trace m') = S (count_exec (squeue_state_cmd j) (trace m)) /\
    slurm_job_id (self m') = Some j /\
    (forall e, res = Raise e -> e = ValueError \/ e = UnicodeDecodeError).
Proof.
  intros Hj Hne Hnul Hst. unfold bind at 1. rewrite start_loop_pending_eq by done.
  unfold bind at 1. rewrite (check_state_present sched _ j) by done. cbn [trace].
  destruct (state_reply sched j _) as [out|e] eqn:Hr.
  - run. cbn [start_loop]. run.
    match goal with |- context [after_loop sched Exhausted ?m3] =>
      destruct (after_loop_no_state_query Exhausted m3 j Hj) as (res & m' & Heq & Hc & Hid & He)
    end.
    exists res, m'. split; [exact Heq |]. split_and!; [| done | done].
    rewrite Hc. unfold checked. run. by rewrite String.eqb_refl.
  - eexists _, _. split; [reflexivity |]. split_and!.
    + unfold ran. rewrite state_cmd_nul, Hnul. run. by rewrite String.eqb_refl.
    + unfold ran. destruct (Py.has_nul (squeue_state_cmd j)); exact Hj.
    + intros e' [= <-]. apply run_reply_raise in Hr. tauto.
Qed.

(** After 15 PENDING answers [start] makes its 16th state query and
    ends, whatever that query and the name resolution give. *)
Lemma start_exhausted_any (s : spawner B) tr0 v tok :
  env s !! "JPY_API_TOKEN" = Some v -> submits sched tok -> tok <> EmptyString ->
  answers sched tok (count_exec (squeue_state_cmd tok) tr0)
                    (count_exec (squeue_state_cmd tok) tr0 + 15) PENDING ->
  exists res m',
    start sched (Machine s tr0) = (res, m') /\
    count_exec (squeue_state_cmd tok) (trace m') = count_exec (squeue_state_cmd tok) tr0 + 16 /\
    slurm_job_id (self m') = Some tok /\
    (forall e, res = Raise e -> e = ValueError \/ e = UnicodeDecodeError).
Proof.
  intros Hv Hsub Hne Hpend.
  destruct (start_submitted sched s tr0 v tok Hv Hsub) as (tr1 & Hstart & Hcmd1 & Hc1).
  set (s1 := set_job_id (Some tok) (set_server_port (random_port s) s)) in *.
  pose proof (Hc1 _ (not_eq_sym (sbatch_not_state_query tok))) as Hq1.
  destruct (await_job_pending (Machine s1 tr1) tok 14)
    as (out & h & tr & Hout & Hh & Heq & Hc & Ho & Hcmd).
  { done. } { done. } { lia. }
  { cbn [trace]. rewrite Hq1. intros h Hh. apply Hpend. lia. }
  { cbn [trace]. rewrite Hq1. intros h Hh.
    destruct (Hpend h) as (out & Hout & _); [lia | eauto]. }
  cbn [trace self] in *. rewrite Hq1 in *.
  destruct (Hpend h) as (out' & Hout' & Hst); [lia |].
  rewrite Hout in Hout'. injection Hout' as <-.
  assert (Hnul : Py.has_nul tok = false).
  { apply run_reply_ok in Hout. by rewrite state_cmd_nul in Hout. }
  change (15 - 14) with 1 in Heq.
  destruct (last_round_pending (Machine s1 tr) tok out eq_refl Hne Hnul Hst)
    as (res & m' & Hlast & Hcount & Hid & He).
  exists res, m'. split; [by rewrite Hstart, Heq |].
  cbn [trace] in Hcount. split_and!; [lia | done | done].
Qed.

(** With the empty job id nothing is asked: the wait ends with 1. *)
Lemma await_job_empty (m : machine B) :
  slurm_job_id (self m) = Some EmptyString ->
  await_job sched m =
    (Ok (Some 1),
     Machine (self m)
       (Log INFO ("Job " +:+ EmptyString +:+ " failed to start!")
        :: Log INFO ("job_state is " +:+ EmptyString) :: trace m)).
Proof.
  intros Hj. unfold await_job. unfold bind at 1.
  rewrite check_state_absent by (by rewrite Hj).
  unfold bind. rewrite start_loop_terminal by done. rewrite Hj. reflexivity.
Qed.

(** However [start] ends once it has its token, it has run [sbatch] on
    the rendered script, and nothing before it. *)
Lemma start_runs_sbatch (s : spawner B) tr0 v e c' l :
  env s !! "JPY_API_TOKEN" = Some v ->
  Py.split ";" (Py.join " " (("export JPY_API_TOKEN=" +:+ dquote +:+ v +:+ dquote +:+ ";")
                             :: cmd s ++ args s)) = e :: c' :: l ->
  exists l' h,
    trace (snd (start sched (Machine s tr0)))
      = l' ++ Exec "sbatch" (rendered_script e c' (user_name s)) :: h /\
    commands h = commands tr0.
Proof.
  intros Hv Hsplit. pose proof (start_submit_at sched s tr0 v e c' l Hv Hsplit) as Hstart.
  cbn zeta in Hstart. rewrite Hstart.
  destruct (parse_job_id _) as [tok|e0].
  - match goal with |- context [await_job sched ?m1] =>
      destruct (await_job_frame sched m1) as [_ [l1 Hl1]]
    end.
    cbn zeta in Hl1. rewrite Hl1. cbn [trace].
    match goal with |- context [?ifp ++ ?d :: Exec "sbatch" ?sc :: ?h0] =>
      exists (l1 ++ ifp ++ [d]), h0
    end.
    split; [| reflexivity]. rewrite <- !app_assoc. reflexivity.
  - cbn [snd trace]. eexists [], _. split; reflexivity.
Qed.

End Waiting.

(** * [poll] and [stop] *)

Section PollStop.

Context {B : Type} `{SpawnerBase B}.
Variable sched : scheduler.

Lemma poll_absent (m : machine B) :
  truthy (slurm_job_id (self m)) = false ->
  poll sched m = (Ok (Some 1), Machine (clear_state (self m)) (trace m)).
Proof.
  intros Hj. unfold poll. run.
  destruct (slurm_job_id (self m)) as [[|c r]|] eqn:Hid; try done.
  unfold bind at 1. rewrite check_state_absent by (by rewrite Hid). reflexivity.
Qed.

(** The three ways through [poll] for a stored job id. *)
Lemma poll_present (m : machine B) j :
  slurm_job_id (self m) = Some j -> j <> EmptyString ->
  poll sched m =
    match state_reply sched j (trace m) with
    | Ok out =>
        if alive out
        then (Ok None, Machine (self m) (checked (user_name (self m)) j out (trace m)))
        else (Ok (Some 1),
              Machine (clear_state (self m)) (checked (user_name (self m)) j out (trace m)))
    | Raise e => (Raise e, ran (squeue_state_cmd j) m)
    end.
Proof.
  intros Hj Hne. unfold poll. run. rewrite Hj. unfold bind at 1.
  rewrite (check_state_present sched m j) by done.
  destruct (state_reply sched j (trace m)) as [out|e]; [| reflexivity].
  unfold alive. destruct (Py.contains "RUNNING" _ || Py.contains "PENDING" _); run; reflexivity.
Qed.

Lemma poll_not_running_clears (m mp : machine B) v :
  poll sched m = (Ok (Some v), mp) -> slurm_job_id (self mp) = Some EmptyString.
Proof.
  destruct (slurm_job_id (self m)) as [[|c r]|] eqn:Hid.
  - rewrite poll_absent by (by rewrite Hid). by intros [= _ <-].
  - rewrite (poll_present m (String c r)) by done.
    destruct (state_reply _ _ _) as [out|e]; [| done].
    destruct (alive out); [discriminate | by intros [= _ <-]].
  - rewrite poll_absent by (by rewrite Hid). by intros [= _ <-].
Qed.

Lemma stop_not_running now (m mp : machine B) v :
  poll sched m = (Ok (Some v), mp) -> stop sched now m = (Ok tt, mp).
Proof. intros Hp. unfold stop. unfold bind at 1. rewrite Hp. reflexivity. Qed.

Lemma stop_absent now (m : machine B) :
  truthy (slurm_job_id (self m)) = false ->
  stop sched now m = (Ok tt, Machine (clear_state (self m)) (trace m)).
Proof. intros Hj. apply (stop_not_running _ _ _ 1), poll_absent, Hj. Qed.

(** Every way through [stop] for a stored job id. *)
Lemma stop_present now (m : machine B) j :
  slurm_job_id (self m) = Some j -> j <> EmptyString ->
  stop sched now m =
    match state_reply sched j (trace m) with
    | Raise e => (Raise e, ran (squeue_state_cmd j) m)
    | Ok out =>
        let tr1 := checked (user_name (self m)) j out (trace m) in
        if negb (alive out) then (Ok tt, Machine (clear_state (self m)) tr1)
        else
          let hc := Log INFO ("Cancelling slurm job " +:+ j +:+ " for user "
                              +:+ user_name (self m)) :: tr1 in
          match cancel_reply sched j hc with
          | Raise e => (Raise e, ran (scancel_cmd j) (Machine (self m) hc))
          | Ok label =>
              let h2 := Exec (scancel_cmd j) EmptyString :: hc in
              if is_cancel_label label then (Ok tt, Machine (self m) h2)
              else
                match state_reply sched j h2 with
                | Raise e => (Raise e, ran (squeue_state_cmd j) (Machine (self m) h2))
                | Ok out2 =>
                    let tr2 := checked (user_name (self m)) j out2 h2 in
                    if negb (alive out2) then (Ok tt, Machine (clear_state (self m)) tr2)
                    else (Ok tt, Machine (self m)
                                   (Log WARN ("Job " +:+ j +:+ " never cancelled") :: tr2))
                end
          end
    end.
Proof.
  intros Hj Hne. unfold stop. unfold bind at 1. rewrite (poll_present m j Hj Hne).
  destruct (state_reply sched j (trace m)) as [out|e]; [| reflexivity].
  cbn zeta. destruct (alive out); [| reflexivity]. cbn [negb].
  run. rewrite Hj. run. unfold bind at 1. rewrite run_command_eq. cbn [trace].
  unfold cancel_reply.
  destruct (run_reply sched (scancel_cmd j) _) as [label|e] eqn:Hc; [| reflexivity].
  apply run_reply_ok in Hc. unfold ran at 1. rewrite Hc. cbn [self trace].
  destruct (is_cancel_label label); [reflexivity |].
  unfold bind at 1.
  match goal with |- context [poll sched ?x] => rewrite (poll_present x j Hj Hne) end.
  cbn [trace self].
  destruct (state_reply sched j _) as [out2|e]; [| reflexivity].
  destruct (alive out2); run; [by rewrite Hj | reflexivity].
Qed.

(** One call of [stop] adds one of four runs of commands, however it
    ends. *)
Lemma stop_bounded now (m : machine B) :
  exists new,
    commands (trace (snd (stop sched now m))) = commands (trace m) ++ new /\
    new ∈ stop_commands (str_of_id (slurm_job_id (self m))).
Proof.
  destruct (slurm_job_id (self m)) as [[|c r]|] eqn:Hid.
  - rewrite stop_absent by (by rewrite Hid). exists []. rewrite app_nil_r.
    split; [done |]. set_solver.
  - set (j := String c r) in *. cbn [str_of_id].
    rewrite (stop_present now m j) by done. unfold ran, checked.
    repeat match goal with
           | |- context [match ?x with Ok _ => _ | Raise _ => _ end] => destruct x
           | |- context [if ?b then _ else _] => destruct b
           end; cbn [snd trace commands]; rewrite <- ?app_assoc; cbn [app].
    all: first [ exists []; rewrite app_nil_r; split; [reflexivity | set_solver]
               | eexists; split; [reflexivity | set_solver] ].
  - rewrite stop_absent by (by rewrite Hid). exists []. rewrite app_nil_r.
    split; [done |]. set_solver.
Qed.

(** [poll] and [stop] leave the object alone or clear its state, and
    raise nothing but the two exceptions of a command. *)
Lemma poll_frame (m : machine B) :
  (self (snd (poll sched m)) = self m \/ self (snd (poll sched m)) = clear_state (self m)) /\
  (forall e, fst (poll sched m) = Raise e -> e = ValueError \/ e = UnicodeDecodeError).
Proof.
  destruct (slurm_job_id (self m)) as [[|c r]|] eqn:Hid.
  - rewrite poll_absent by (by rewrite Hid). split; [by right | done].
  - rewrite (poll_present m (String c r)) by done.
    destruct (state_reply _ _ _) as [out|e] eqn:Hr.
    + destruct (alive out); (split; [auto | done]).
    + split.
      * left. unfold ran. by destruct (Py.has_nul _).
      * intros e' [= <-]. apply run_reply_raise in Hr. tauto.
  - rewrite poll_absent by (by rewrite Hid). split; [by right | done].
Qed.

Lemma stop_frame now (m : machine B) :
  (self (snd (stop sched now m)) = self m
   \/ self (snd (stop sched now m)) = clear_state (self m)) /\
  (forall e, fst (stop sched now m) = Raise e -> e = ValueError \/ e = UnicodeDecodeError).
Proof.
  destruct (slurm_job_id (self m)) as [[|c r]|] eqn:Hid.
  - rewrite stop_absent by (by rewrite Hid). split; [by right | done].
  - rewrite (stop_present now m (String c r)) by done. cbn zeta.
    destruct (state_reply sched _ (trace m)) as [out|e] eqn:Hr1; cycle 1.
    { split; [left; unfold ran; by destruct (Py.has_nul _) |].
      intros e' [= <-]. apply run_reply_raise in Hr1. tauto. }
    destruct (alive out); cbn [negb]; [| split; [by right | done]].
    destruct (cancel_reply _ _ _) as [label|e] eqn:Hr2; cycle 1.
    { split; [left; unfold ran; by destruct (Py.has_nul _) |].
      intros e' [= <-]. apply run_reply_raise in Hr2. tauto. }
    destruct (is_cancel_label label); [split; [by left | done] |].
    match goal with |- context [state_reply sched ?j ?h] =>
      destruct (state_reply sched j h) as [out2|e] eqn:Hr3 end; cycle 1.
    { split; [left; unfold ran; by destruct (Py.has_nul _) |].
      intros e' [= <-]. apply run_reply_raise in Hr3. tauto. }
    destruct (alive out2); cbn [negb]; (split; [auto | done]).
  - rewrite stop_absent by (by rewrite Hid). split; [by right | done].
Qed.

(** With a stored job id free of NUL, [stop] begins with the state
    query, however it ends. *)
Lemma stop_queries_first now (m : machine B) j :
  slurm_job_id (self m) = Some j -> j <> EmptyString -> Py.has_nul j = false ->
  exists new,
    commands (trace (snd (stop sched now m)))
      = commands (trace m) ++ squeue_state_cmd j :: new.
Proof.
  intros Hj Hne Hnul. rewrite (stop_present now m j) by done.
  unfold ran, checked. rewrite state_cmd_nul, Hnul.
  repeat match goal with
         | |- context [match ?x with Ok _ => _ | Raise _ => _ end] => destruct x
         | |- context [if ?b then _ else _] => destruct b
         end; cbn [snd trace commands]; rewrite <- ?app_assoc; cbn [app].
  all: eexists; reflexivity.
Qed.

(** When the job id holds no NUL and both commands print text, [stop]
    does not raise. *)
Lemma stop_no_raise now (m : machine B) j :
  slurm_job_id (self m) = Some j -> Py.has_nul j = false ->
  prints_text sched (squeue_state_cmd j) -> prints_text sched (scancel_cmd j) ->
  exists m1, stop sched now m = (Ok tt, m1).
Proof.
  intros Hj Hnul Hq Hc. destruct (decide (j = EmptyString)) as [-> | Hne].
  { rewrite stop_absent by (by rewrite Hj). eauto. }
  rewrite (stop_present now m j) by done. cbn zeta.
  destruct (run_reply_text sched (squeue_state_cmd j) (trace m)) as [out Hout];
    [by rewrite state_cmd_nul | done |].
  unfold state_reply at 1. rewrite Hout.
  destruct (alive out); cbn [negb]; [| eauto].
  match goal with |- context [cancel_reply sched j ?h] =>
    destruct (run_reply_text sched (scancel_cmd j) h) as [label Hlabel];
      [by rewrite cancel_cmd_nul | done |];
    unfold cancel_reply; rewrite Hlabel
  end.
  destruct (is_cancel_label label); [eauto |].
  match goal with |- context [state_reply sched j ?h] =>
    destruct (run_reply_text sched (squeue_state_cmd j) h) as [out2 Hout2];
      [by rewrite state_cmd_nul | done |];
    unfold state_reply; rewrite Hout2
  end.
  destruct (alive out2); cbn [negb]; eauto.
Qed.

End PollStop.

(** * The script, line by line *)

Lemma concat_app sep (pre rest : list string) :
  pre <> [] -> rest <> [] ->
  String.concat sep (pre ++ rest) = String.concat sep pre +:+ sep +:+ String.concat sep rest.
Proof.
  intros Hpre Hrest. induction pre as [|x pre IH]; [done |].
  destruct pre as [|y pre].
  - destruct rest; [done | reflexivity].
  - change (String.concat sep ((x :: y :: pre) ++ rest))
      with (x +:+ sep +:+ String.concat sep ((y :: pre) ++ rest)).
    rewrite IH by done.
    change (String.concat sep (x :: y :: pre))
      with (x +:+ sep +:+ String.concat sep (y :: pre)).
    by rewrite !append_assoc.
Qed.

(** A line that is neither the first nor the last stands in the joined
    text between two line breaks. *)
Lemma join_line (ls : list string) i l :
  0 < i -> S i < length ls -> ls !! i = Some l ->
  Py.contains (newline +:+ l +:+ newline) (Py.join newline ls) = true.
Proof.
  intros Hi Hlen Hl. apply contains_spec.
  rewrite <- (take_drop_middle ls i l Hl). unfold Py.join.
  assert (Hpre : take i ls <> []).
  { intros Hnil. apply (f_equal length) in Hnil. rewrite length_take in Hnil.
    simpl in Hnil. lia. }
  assert (Hpost : drop (S i) ls <> []).
  { intros Hnil. apply (f_equal length) in Hnil. rewrite length_drop in Hnil.
    simpl in Hnil. lia. }
  rewrite concat_app by done.
  destruct (drop (S i) ls) as [|y post] eqn:Hd; [done |].
  change (String.concat newline (l :: y :: post))
    with (l +:+ newline +:+ String.concat newline (y :: post)).
  exists (String.concat newline (take i ls)), (String.concat newline (y :: post)).
  by rewrite !append_assoc.
Qed.

Lemma rendered_script_lines e c user :
  rendered_script e c user = Py.join newline (script_lines e c user).
Proof.
  unfold rendered_script, script_lines, Py.join. cbn [String.concat].
  rewrite !append_assoc. reflexivity.
Qed.

Lemma script_has_defaults e c user :
  Forall (fun d => Py.contains d (rendered_script e c user) = true) (default_directives user).
Proof.
  rewrite rendered_script_lines. unfold default_directives.
  repeat apply Forall_cons_2; [.. | apply Forall_nil_2].
  - apply (join_line _ 1); [lia | simpl; lia | reflexivity].
  - apply (join_line _ 6); [lia | simpl; lia | reflexivity].
  - apply (join_line _ 2); [lia | simpl; lia | reflexivity].
  - apply (join_line _ 3); [lia | simpl; lia | reflexivity].
  - apply (join_line _ 4); [lia | simpl; lia | reflexivity].
  - apply (join_line _ 5); [lia | simpl; lia | reflexivity].
  - apply (join_line _ 8); [lia | simpl; lia | reflexivity].
Qed.

(** * Further facts about splitting *)

Lemma free_of_inv sep c a :
  Py.free_of sep (String c a) -> Ascii.eqb c sep = false /\ Py.free_of sep a.
Proof.
  intros Hf. split.
  - destruct (Ascii.eqb c sep) eqn:Hc; [| done].
    apply Ascii.eqb_eq in Hc as ->. by destruct (Hf EmptyString a).
  - intros pre post ->. by apply (Hf (String c pre) post).
Qed.

Lemma free_of_app sep a b :
  Py.free_of sep a -> Py.free_of sep b -> Py.free_of sep (a +:+ b).
Proof.
  induction a as [|c a IH]; intros Ha Hb; [exact Hb |].
  apply free_of_inv in Ha as [Hc Ha].
  change (String c a +:+ b) with (String c (a +:+ b)).
  apply free_of_cons; auto.
Qed.

Lemma contains_char_free sep s :
  Py.contains (String sep EmptyString) s = false -> Py.free_of sep s.
Proof.
  intros Hc pre post ->.
  assert (Py.contains (String sep EmptyString) (pre +:+ String sep post) = true);
    [| congruence].
  apply contains_spec. by exists pre, post.
Qed.

Lemma split_free sep a : Py.free_of sep a -> Py.split sep a = [a].
Proof.
  induction a as [|c a IH]; intros Hf; [done |].
  apply free_of_inv in Hf as [Hc Hf]. simpl. by rewrite Hc, IH.
Qed.

Lemma split_app_sep sep a b :
  Py.free_of sep a -> Py.split sep (a +:+ String sep b) = a :: Py.split sep b.
Proof.
  induction a as [|c a IH]; intros Hf.
  - simpl. by rewrite Ascii.eqb_refl.
  - apply free_of_inv in Hf as [Hc Hf].
    change (String c a +:+ String sep b) with (String c (a +:+ String sep b)).
    simpl. by rewrite Hc, IH.
Qed.

Lemma commands_app (l t : list event) : commands (l ++ t) = commands t ++ commands l.
Proof.
  induction l as [|e l IH]; [by rewrite app_nil_r |].
  destruct e; cbn [app commands]; rewrite IH; [by rewrite app_assoc | done..].
Qed.

Lemma append_nil_r (a : string) : a +:+ EmptyString = a.
Proof.
  induction a as [|x a IH]; [done |].
  change (String x (a +:+ EmptyString) = String x a). by rewrite IH.
Qed.

(** The command line of [start]: the export, a [;], and each word
    after a space. *)
Lemma start_command_line v (c : list string) :
  Py.join " " (("export JPY_API_TOKEN=" +:+ dquote +:+ v +:+ dquote +:+ ";") :: c)
  = ("export JPY_API_TOKEN=" +:+ dquote +:+ v +:+ dquote)
    +:+ String ";" (Py.join " " (EmptyString :: c)).
Proof.
  unfold Py.join. destruct c as [|y c]; cbn [String.concat].
  - rewrite !append_assoc. reflexivity.
  - rewrite !append_assoc. reflexivity.
Qed.

Lemma export_free_of_semicolon v :
  Py.free_of ";" v ->
  Py.free_of ";" ("export JPY_API_TOKEN=" +:+ dquote +:+ v +:+ dquote).
Proof.
  intros Hv. repeat apply free_of_app; try exact Hv; by apply contains_char_free.
Qed.

(** * The claims *)

Section Claims.

Context {B : Type} `{SpawnerBase B} `{PyUnicode}.

(** C1 (amended).  When the scheduler answers PENDING to 15 consecutive
    state queries, [start] does not hang: it ends after exactly 16 state
    queries, one before the loop and one in each of its 15 iterations.
    The stored job id is not cleared: it is still the token read from
    the output of [sbatch].  [start] raises nothing but
    [UnicodeDecodeError] and [ValueError], and it does not raise at all
    when the 16th answer can be read and the node and its address are
    printed as text. *)
Theorem start_pending_cap_terminates (sched : scheduler) (s : spawner B) tr0 v tok :
  env s !! "JPY_API_TOKEN" = Some v ->
  submits sched tok ->
  tok <> EmptyString ->
  answers sched tok (count_exec (squeue_state_cmd tok) tr0)
                    (count_exec (squeue_state_cmd tok) tr0 + 15) PENDING ->
  exists res m',
    start sched (Machine s tr0) = (res, m') /\
    count_exec (squeue_state_cmd tok) (trace m')
      = count_exec (squeue_state_cmd tok) tr0 + 16 /\
    slurm_job_id (self m') = Some tok /\
    (forall e, res = Raise e -> e = ValueError \/ e = UnicodeDecodeError) /\
    ((forall h, count_exec (squeue_state_cmd tok) h
                = count_exec (squeue_state_cmd tok) tr0 + 15 ->
                exists out, state_reply sched tok h = Ok out) ->
     forall node ip, names_node sched tok node -> resolves sched node ip ->
     exists r, res = Ok r).
Proof.
  intros Hv Hsub Hne Hpend.
  destruct (start_exhausted_any sched s tr0 v tok Hv Hsub Hne Hpend)
    as (res & m' & Hstart & Hcount & Hid & He).
  exists res, m'. split_and!; [exact Hstart | exact Hcount | exact Hid | exact He |].
  intros Hread node ip Hnode Hhost.
  destruct (start_exhausted sched s tr0 v tok node ip Hv Hsub Hne Hpend Hread Hnode Hhost)
    as (m'' & Hstart' & _).
  rewrite Hstart in Hstart'. injection Hstart' as -> _. eauto.
Qed.

(** C2 (amended).  When one of the first 15 queried states is neither
    RUNNING nor PENDING, every earlier one having been PENDING and each
    answer being text, [start] returns the failure result 1 without
    raising and without resolving a host: the commands it ran are
    [sbatch] and the state queries.  The stored job id is left as read
    from the output of [sbatch]; it is not cleared. *)
Theorem start_fails_on_other_state (sched : scheduler) (s : spawner B) tr0 v tok k :
  env s !! "JPY_API_TOKEN" = Some v ->
  submits sched tok ->
  tok <> EmptyString ->
  k < 15 ->
  answers sched tok (count_exec (squeue_state_cmd tok) tr0)
                    (count_exec (squeue_state_cmd tok) tr0 + k) PENDING ->
  answers sched tok (count_exec (squeue_state_cmd tok) tr0 + k)
                    (count_exec (squeue_state_cmd tok) tr0 + S k) TERMINAL ->
  exists m',
    start sched (Machine s tr0) = (Ok (Some 1), m') /\
    slurm_job_id (self m') = Some tok /\
    commands (trace m')
      = commands tr0 ++ "sbatch" :: replicate (S k) (squeue_state_cmd tok).
Proof.
  intros Hv Hsub Hne Hk Hpend Hterm.
  destruct (start_failed_after sched s tr0 v tok k Hv Hsub Hne Hk Hpend Hterm)
    as (m' & Hstart & Hself & Hcmd & _).
  exists m'. split_and!; [exact Hstart | by rewrite Hself | exact Hcmd].
Qed.

(** C3.  With no job id, [None] or the empty string, [poll] returns 1
    (not running) for every scheduler and adds nothing to the trace: no
    command is run. *)
Theorem poll_absent_no_query (sched : scheduler) (m : machine B) :
  slurm_job_id (self m) = None \/ slurm_job_id (self m) = Some EmptyString ->
  exists m',
    poll sched m = (Ok (Some 1), m') /\
    trace m' = trace m /\
    commands (trace m') = commands (trace m).
Proof.
  intros Hj. exists (Machine (clear_state (self m)) (trace m)).
  split; [| done]. apply poll_absent. by destruct Hj as [-> | ->].
Qed.

(** C4.  When the first three state queries are answered PENDING and the
    fourth RUNNING, the scheduler names a node for the job and [host]
    prints an address for it, [start] succeeds: it returns normally, the
    job id and the address stored, having run [sbatch], exactly four
    state queries, one node query and the name resolution, in this
    order. *)
Theorem start_three_pending_then_running (sched : scheduler) (s : spawner B) tr0 v tok
    node ip :
  env s !! "JPY_API_TOKEN" = Some v ->
  submits sched tok ->
  tok <> EmptyString ->
  answers sched tok (count_exec (squeue_state_cmd tok) tr0)
                    (count_exec (squeue_state_cmd tok) tr0 + 3) PENDING ->
  answers sched tok (count_exec (squeue_state_cmd tok) tr0 + 3)
                    (count_exec (squeue_state_cmd tok) tr0 + 4) RUNNING ->
  names_node sched tok node ->
  resolves sched node ip ->
  exists m',
    start sched (Machine s tr0) = (Ok None, m') /\
    slurm_job_id (self m') = Some tok /\
    server_ip (self m') = ip /\
    commands (trace m')
      = commands tr0 ++ [ "sbatch";
                          squeue_state_cmd tok; squeue_state_cmd tok;
                          squeue_state_cmd tok; squeue_state_cmd tok;
                          squeue_node_cmd tok; host_cmd node ] /\
    count_exec (squeue_state_cmd tok) (trace m')
      = count_exec (squeue_state_cmd tok) tr0 + 4 /\
    count_exec (squeue_node_cmd tok) (trace m')
      = count_exec (squeue_node_cmd tok) tr0 + 1.
Proof.
  intros Hv Hsub Hne Hpend Hrun Hnode Hhost.
  destruct (start_running_after sched s tr0 v tok 3 node ip Hv Hsub Hne) as
    (m' & Hstart & Hself & Hcmd & Hq & Hn); [lia | done | done | done | done |].
  exists m'. rewrite Hself. split_and!; done.
Qed.


(** C6.  For a non-empty job id, [get_state] stores the id under the key
    slurm_job_id, [load_state] of that blob on any other instance
    restores exactly this id, and after [clear_state] the blob of
    [get_state] has no such key, the base class not using the key
    itself. *)
Theorem state_round_trip (s fresh : spawner B) (j : string) :
  j <> EmptyString ->
  slurm_job_id s = Some j ->
  (forall b : B, base_get_state b !! job_id_key = None) ->
  get_state s !! job_id_key = Some j /\
  slurm_job_id (load_state (get_state s) fresh) = Some j /\
  get_state (clear_state s) !! job_id_key = None.
Proof.
  intros Hne Hj Hbase. destruct j as [|c r]; [done |].
  assert (Hget : get_state s !! job_id_key = Some (String c r)).
  { unfold get_state. rewrite Hj. apply lookup_insert_eq. }
  split_and!.
  - exact Hget.
  - unfold load_state. cbn [slurm_job_id set_job_id]. by rewrite Hget.
  - unfold get_state, clear_state. cbn [slurm_job_id set_job_id set_base base].
    apply Hbase.
Qed.

(** C7 (amended).  [stop] is bounded: one call runs at most the state
    query of its first [poll], one [scancel] and one more state query,
    however it ends.  It raises nothing but [ValueError] and
    [UnicodeDecodeError], and does not raise when the job id holds no
    NUL and both commands print text.  It starts with [poll] and, when
    that reports the job not running, returns at once with the job id
    cleared, and a second [stop] then adds nothing to the trace; the
    same holds after any call that leaves the id cleared, as does a call
    whose [scancel] is followed by a [poll] that finds the job gone.
    When [scancel] itself prints one of the four labels, [stop] returns
    without that [poll] and keeps the id, and the next [stop] begins
    with a state query of its own. *)
Theorem stop_idempotent_bounded (sched : scheduler) (now : bool) (m : machine B) :
  (exists new,
     commands (trace (snd (stop sched now m))) = commands (trace m) ++ new /\
     new ∈ stop_commands (str_of_id (slurm_job_id (self m)))) /\
  (forall e, fst (stop sched now m) = Raise e -> e = ValueError \/ e = UnicodeDecodeError) /\
  (forall j,
     slurm_job_id (self m) = Some j -> Py.has_nul j = false ->
     prints_text sched (squeue_state_cmd j) -> prints_text sched (scancel_cmd j) ->
     exists m1, stop sched now m = (Ok tt, m1)) /\
  (forall mp,
     poll sched m = (Ok (Some 1), mp) ->
     stop sched now m = (Ok tt, mp) /\
     slurm_job_id (self mp) = Some EmptyString /\
     exists m2, stop sched now mp = (Ok tt, m2) /\ trace m2 = trace mp) /\
  (forall m1,
     stop sched now m = (Ok tt, m1) ->
     slurm_job_id (self m1) = Some EmptyString ->
     exists m2,
       stop sched now m1 = (Ok tt, m2) /\
       trace m2 = trace m1 /\
       slurm_job_id (self m2) = Some EmptyString) /\
  (forall j out label out2,
     slurm_job_id (self m) = Some j -> j <> EmptyString ->
     let hc := Log INFO ("Cancelling slurm job " +:+ j +:+ " for user "
                         +:+ user_name (self m))
               :: checked (user_name (self m)) j out (trace m) in
     let h2 := Exec (scancel_cmd j) EmptyString :: hc in
     state_reply sched j (trace m) = Ok out -> alive out = true ->
     cancel_reply sched j hc = Ok label -> is_cancel_label label = false ->
     state_reply sched j h2 = Ok out2 -> alive out2 = false ->
     exists m1,
       stop sched now m = (Ok tt, m1) /\
       commands (trace m1)
         = commands (trace m) ++ [squeue_state_cmd j; scancel_cmd j; squeue_state_cmd j] /\
       slurm_job_id (self m1) = Some EmptyString) /\
  (forall j out label,
     slurm_job_id (self m) = Some j -> j <> EmptyString ->
     let hc := Log INFO ("Cancelling slurm job " +:+ j +:+ " for user "
                         +:+ user_name (self m))
               :: checked (user_name (self m)) j out (trace m) in
     state_reply sched j (trace m) = Ok out -> alive out = true ->
     cancel_reply sched j hc = Ok label -> is_cancel_label label = true ->
     exists m1,
       stop sched now m = (Ok tt, m1) /\
       commands (trace m1) = commands (trace m) ++ [squeue_state_cmd j; scancel_cmd j] /\
       slurm_job_id (self m1) = Some j /\
       exists new,
         commands (trace (snd (stop sched now m1)))
           = commands (trace m1) ++ squeue_state_cmd j :: new).
Proof.
  split_and!.
  - apply stop_bounded.
  - apply stop_frame.
  - intros j. apply stop_no_raise.
  - intros mp Hp.
    pose proof (poll_not_running_clears sched m mp 1 Hp) as Hid.
    split_and!; [by apply (stop_not_running _ _ _ _ 1) | exact Hid |].
    eexists. split; [apply stop_absent; by rewrite Hid |]. done.
  - intros m1 _ Hid. eexists. split; [apply stop_absent; by rewrite Hid |]. done.
  - intros j out label out2 Hj Hne hc h2 Ho Ha Hc Hl Ho2 Ha2.
    pose proof (stop_present sched now m j Hj Hne) as Hstop. cbn zeta in Hstop.
    rewrite Ho, Ha in Hstop. cbn [negb] in Hstop. fold hc in Hstop.
    rewrite Hc, Hl in Hstop. fold h2 in Hstop. rewrite Ho2, Ha2 in Hstop.
    cbn [negb] in Hstop.
    eexists. split; [exact Hstop |]. split; [| done].
    subst h2 hc. unfold checked. run. by rewrite <- !app_assoc.
  - intros j out label Hj Hne hc Ho Ha Hc Hl.
    pose proof (stop_present sched now m j Hj Hne) as Hstop. cbn zeta in Hstop.
    rewrite Ho, Ha in Hstop. cbn [negb] in Hstop. fold hc in Hstop.
    rewrite Hc, Hl in Hstop.
    eexists. split; [exact Hstop |]. split_and!.
    + subst hc. unfold checked. run. by rewrite <- !app_assoc.
    + exact Hj.
    + apply stop_queries_first; [exact Hj | exact Hne |].
      apply run_reply_ok in Ho. by rewrite state_cmd_nul in Ho.
Qed.

(** C8.  Whenever a script is rendered, and one is for every command
    with a [;] in it, as the command built by [start] always has, it
    holds as full lines the partition all, the memory 200, the time
    2:00:00, the log path /home/<user>/jupyterhub_slurmspawner_%j.log,
    the job name spawner-jupyterhub, the working directory /home/<user>
    and the flag --get-user-env=L. *)
Theorem sbatch_script_defaults (c user : string) :
  (forall script,
     render_sbatch c user = Ok script ->
     (exists e c', script = Py.join newline (script_lines e c' user)) /\
     Forall (fun d => Py.contains d script = true) (default_directives user)) /\
  (Py.contains ";" c = true -> exists script, render_sbatch c user = Ok script) /\
  (forall v l, exists script,
     render_sbatch
       (Py.join " " (("export JPY_API_TOKEN=" +:+ dquote +:+ v +:+ dquote +:+ ";") :: l))
       user = Ok script).
Proof.
  split_and!.
  - intros script Hr.
    destruct (Py.split ";" c) as [|e [|c' l]] eqn:Hs;
      [by rewrite render_sbatch_short in Hr by (by rewrite Hs)
      |by rewrite render_sbatch_short in Hr by (by rewrite Hs) |].
    rewrite (render_sbatch_split _ _ _ _ _ Hs) in Hr. injection Hr as <-. split.
    + exists e, c'. apply rendered_script_lines.
    + apply script_has_defaults.
  - intros (pre & post & ->)%contains_spec.
    destruct (split_two ";" pre post) as (e & c' & l & Hs).
    exists (rendered_script e c' user). by apply (render_sbatch_split _ _ _ _ l).
  - intros v l. destruct (export_cmd_split v l) as (e & c' & l' & Hs).
    exists (rendered_script e c' user). by apply (render_sbatch_split _ _ _ _ l').
Qed.

(** C9 (amended).  [start] decodes the stripped output of [sbatch],
    raising [UnicodeDecodeError] when it is not text, and takes as job
    id its last field when split at the single space character: the id
    holds no space and ends the output, right after its last space if it
    has one; other white space does not delimit.  Whether or not [int]
    accepts the id, [start] stores it and goes on to await the job; it
    adds a log line exactly when [int] rejects the id.  With an empty id
    it asks nothing and returns 1; with a non-empty id free of NUL it
    runs the state query; with a NUL in the id it raises [ValueError]
    having run [sbatch] only. *)
Theorem start_stores_last_space_token (sched : scheduler) (s : spawner B) tr0 v :
  env s !! "JPY_API_TOKEN" = Some v ->
  exists h script,
    commands h = commands tr0 /\
    let out := Py.strip Py.bytes_isspace (sched h "sbatch" script) in
    let run := start sched (Machine s tr0) in
    match decode out with
    | Raise _ =>
        run = (Raise UnicodeDecodeError,
               Machine (set_server_port (random_port s) s) (Exec "sbatch" script :: h))
    | Ok text =>
        exists tok l,
          last (Py.split " " text) = Some tok /\
          Py.free_of " " tok /\
          (text = tok \/ exists pre, text = pre +:+ " " +:+ tok) /\
          run = await_job sched
                  (Machine (set_job_id (Some tok) (set_server_port (random_port s) s))
                     (l ++ Exec "sbatch" script :: h)) /\
          commands l = [] /\
          (In (Log INFO ("sbatch returned this at the end of their string: " +:+ tok)) l
           <-> Py.int_parses tok = false) /\
          slurm_job_id (self (snd run)) = Some tok /\
          (tok = EmptyString ->
           fst run = Ok (Some 1) /\ commands (trace (snd run)) = commands tr0 ++ ["sbatch"]) /\
          (tok <> EmptyString -> Py.has_nul tok = false ->
           In (Exec (squeue_state_cmd tok) EmptyString) (trace (snd run))) /\
          (Py.has_nul tok = true ->
           fst run = Raise ValueError /\
           commands (trace (snd run)) = commands tr0 ++ ["sbatch"])
    end.
Proof.
  intros Hv. destruct (start_submit sched s tr0 v Hv) as (e & c' & Hh & Hstart).
  cbn zeta in Hstart.
  match type of Hstart with
  | _ = match parse_job_id (sched ?h _ ?script) with _ => _ end => exists h, script
  end.
  split; [exact Hh |]. cbn zeta. unfold parse_job_id in Hstart.
  destruct (decode _) as [text|e0] eqn:Hd; cbn [rbind] in Hstart; cycle 1.
  { apply decode_raise in Hd as ->. exact Hstart. }
  destruct (split_last " " text) as [tok Hlast]. rewrite Hlast in Hstart.
  change (default EmptyString (Some tok)) with tok in Hstart.
  destruct (split_last_spec _ _ _ Hlast) as [Hfree Hend].
  match type of Hstart with
  | _ = await_job _ (Machine _ (?l0 ++ ?d :: _)) => exists tok, (l0 ++ [d])
  end.
  rewrite <- app_assoc. cbn [app]. rewrite Hstart.
  split_and!; [exact Hlast | exact Hfree | exact Hend | reflexivity | | | | | |].
  - destruct (Py.int_parses tok); reflexivity.
  - destruct (Py.int_parses tok); cbn [app In]; split; intros Hx; try done.
    + by destruct Hx as [Hx | []].
    + by left.
  - by rewrite await_job_keeps_id.
  - intros ->. rewrite await_job_empty by done. cbn [fst snd trace]. split; [done |].
    destruct (Py.int_parses EmptyString); run; reflexivity.
  - intros Hne Hnul. by apply await_job_queries.
  - intros Hnul. rewrite (await_job_nul _ _ tok) by done. cbn [fst snd trace].
    split; [done |]. destruct (Py.int_parses tok); run; reflexivity.
Qed.

(** C10.  The argument [now] of [stop] has no effect: with either value
    the result, the spawner object and the trace of commands are the
    same, for every spawner and every scheduler. *)
Theorem stop_now_irrelevant (sched : scheduler) (now1 now2 : bool) (m : machine B) :
  stop sched now1 m = stop sched now2 m.
Proof. destruct now1, now2; reflexivity. Qed.

End Claims.

(** * The claims at concrete inputs *)

(** What the stub answers to the state queries for its own job. *)
Lemma stub_state_reply j sbatch_out states rest cancel_out node host_out h :
  Py.has_nul j = false ->
  state_reply (stub j sbatch_out states rest cancel_out node host_out) j h
  = rbind (decode (nth (count_exec (squeue_state_cmd j) h) states rest))
          (fun t => Ok (Py.str_strip t)).
Proof.
  intros Hnul. unfold state_reply, run_reply, stub. rewrite state_cmd_nul, Hnul.
  change (String.eqb (squeue_state_cmd j) "sbatch") with false.
  by rewrite String.eqb_refl.
Qed.

Lemma stub_answers j sbatch_out states rest cancel_out node host_out lo hi st :
  Py.has_nul j = false ->
  (forall n, lo <= n < hi ->
             exists out, rbind (decode (nth n states rest)) (fun t => Ok (Py.str_strip t)) = Ok out
                         /\ derive_state out = st) ->
  answers (stub j sbatch_out states rest cancel_out node host_out) j lo hi st.
Proof. intros Hnul Hn h Hh. rewrite stub_state_reply by done. by apply Hn. Qed.

Lemma start_pending_cap_terminates_witness :
  exists res m',
    start stub_always_pending (Machine (alice (Some EmptyString)) []) = (res, m') /\
    count_exec (squeue_state_cmd "209") (trace m') = 0 + 16 /\
    slurm_job_id (self m') = Some "209".
Proof.
  destruct (start_pending_cap_terminates stub_always_pending (alice (Some EmptyString)) []
              "secret" "209") as (res & m' & Hstart & Hcount & Hid & _).
  - reflexivity.
  - intros h stdin. reflexivity.
  - discriminate.
  - apply stub_answers; [reflexivity |]. intros n Hn. exists "PENDING".
    destruct n; split; reflexivity.
  - exists res, m'. split_and!; [exact Hstart | exact Hcount | exact Hid].
Defined.

(** C1, as stated, fails: with PENDING for ever [start] returns as on
    success, having resolved a host, and the job id is still stored. *)
Lemma start_pending_cap_proceeds :
  answers stub_always_pending "209" 0 15 PENDING /\
  exists m',
    start stub_always_pending (Machine (alice (Some EmptyString)) []) = (Ok None, m') /\
    slurm_job_id (self m') = Some "209" /\
    commands (trace m')
      = "sbatch" :: replicate 16 (squeue_state_cmd "209")
        ++ [squeue_node_cmd "209"; host_cmd EmptyString].
Proof.
  split.
  - apply stub_answers; [reflexivity |]. intros n Hn. exists "PENDING".
    destruct n; split; reflexivity.
  - exists (snd (start stub_always_pending (Machine (alice (Some EmptyString)) []))).
    split_and!; vm_compute; reflexivity.
Qed.

Lemma start_fails_on_other_state_witness :
  exists m',
    start stub_failed (Machine (alice (Some EmptyString)) []) = (Ok (Some 1), m') /\
    slurm_job_id (self m') = Some "209" /\
    commands (trace m') = [] ++ "sbatch" :: replicate 1 (squeue_state_cmd "209").
Proof.
  apply (start_fails_on_other_state stub_failed (alice (Some EmptyString)) []
           "secret" "209" 0).
  - reflexivity.
  - intros h stdin. reflexivity.
  - discriminate.
  - lia.
  - intros h Hh. simpl in Hh. lia.
  - apply stub_answers; [reflexivity |]. intros n Hn. exists "FAILED".
    destruct n; split; reflexivity.
Defined.

(** C2, as stated, fails: the first state is FAILED, [start] returns 1,
    and the job id is still 209, not the empty string. *)
Lemma start_failure_keeps_job_id :
  state_reply stub_failed "209" [] = Ok "FAILED" /\
  derive_state "FAILED" = TERMINAL /\
  exists m',
    start stub_failed (Machine (alice (Some EmptyString)) []) = (Ok (Some 1), m') /\
    slurm_job_id (self m') = Some "209" /\
    slurm_job_id (self m') <> Some EmptyString.
Proof.
  split; [reflexivity |]. split; [reflexivity |].
  exists (snd (start stub_failed (Machine (alice (Some EmptyString)) []))).
  split_and!; [vm_compute; reflexivity | vm_compute; reflexivity |].
  vm_compute. discriminate.
Qed.

Lemma poll_absent_no_query_witness :
  exists m',
    poll stub_pending3 (Machine (alice None) []) = (Ok (Some 1), m') /\
    trace m' = [] /\
    commands (trace m') = [].
Proof.
  apply (poll_absent_no_query stub_pending3 (Machine (alice None) [])).
  left. reflexivity.
Defined.

Lemma start_three_pending_then_running_witness :
  exists m',
    start stub_pending3 (Machine (alice (Some EmptyString)) []) = (Ok None, m') /\
    slurm_job_id (self m') = Some "209" /\
    server_ip (self m') = "10.0.0.7" /\
    commands (trace m')
      = [] ++ [ "sbatch";
                squeue_state_cmd "209"; squeue_state_cmd "209";
                squeue_state_cmd "209"; squeue_state_cmd "209";
                squeue_node_cmd "209"; host_cmd "node07" ] /\
    count_exec (squeue_state_cmd "209") (trace m') = 0 + 4 /\
    count_exec (squeue_node_cmd "209") (trace m') = 0 + 1.
Proof.
  apply (start_three_pending_then_running stub_pending3 (alice (Some EmptyString)) []
           "secret" "209" "node07" "10.0.0.7").
  - reflexivity.
  - intros h stdin. reflexivity.
  - discriminate.
  - apply stub_answers; [reflexivity |]. intros n Hn. exists "PENDING".
    destruct n as [|[|[|n]]]; [split; reflexivity.. | simpl in Hn; lia].
  - apply stub_answers; [reflexivity |]. intros n Hn. exists "RUNNING".
    destruct n as [|[|[|[|n]]]]; [simpl in Hn; lia.. | split; reflexivity | simpl in Hn; lia].
  - intros h. reflexivity.
  - intros h. reflexivity.
Defined.

(** What the run of C4 looks like on the stub. *)
Example start_pending3_run :
  let m' := snd (start stub_pending3 (Machine (alice (Some EmptyString)) [])) in
  fst (start stub_pending3 (Machine (alice (Some EmptyString)) [])) = Ok None /\
  server_ip (self m') = "10.0.0.7" /\
  server_port (self m') = 8888%N /\
  commands (trace m')
    = [ "sbatch"; "squeue -h -j 209 -o %T"; "squeue -h -j 209 -o %T";
        "squeue -h -j 209 -o %T"; "squeue -h -j 209 -o %T";
        "squeue -h -j 209 -o %N"; "host node07" ].
Proof. cbn zeta. split_and!; vm_compute; reflexivity. Qed.

(** The states are found by substring: one RUNNING line for each of two
    tasks is RUNNING, and so is a line that names both states. *)
Example derive_state_of_longer_outputs :
  derive_state two_running = RUNNING /\
  derive_state "PENDING,RUNNING" = RUNNING /\
  derive_state "NOT_PENDING" = PENDING /\
  derive_state "TIMEOUT" = TERMINAL.
Proof. repeat split; reflexivity. Qed.

Lemma token_base_no_job_key (b : token_base) :
  base_get_state b !! job_id_key = None.
Proof. destruct b as [[|c r]]; reflexivity. Qed.

Lemma state_round_trip_witness :
  get_state (alice (Some "209")) !! job_id_key = Some "209" /\
  slurm_job_id (load_state (get_state (alice (Some "209"))) (alice (Some EmptyString)))
    = Some "209" /\
  get_state (clear_state (alice (Some "209"))) !! job_id_key = None.
Proof.
  apply (state_round_trip (alice (Some "209")) (alice (Some EmptyString)) "209").
  - discriminate.
  - reflexivity.
  - apply token_base_no_job_key.
Defined.

(** C7, as stated, fails twice.  [stop] raises when the state query
    prints bytes that are not UTF-8.  And when [scancel] prints
    CANCELLED for a running job, the first [stop] returns without a
    [poll] and keeps the id, so the second [stop] runs a state query of
    its own. *)
Lemma stop_raises_and_asks_again :
  fst (stop stub_garbled false (Machine (alice (Some "209")) [])) = Raise UnicodeDecodeError /\
  let m0 := Machine (alice (Some "209")) [] in
  let m1 := snd (stop stub_cancel_label false m0) in
  let m2 := snd (stop stub_cancel_label false m1) in
  fst (stop stub_cancel_label false m0) = Ok tt /\
  commands (trace m1) = ["squeue -h -j 209 -o %T"; "scancel 209"] /\
  slurm_job_id (self m1) = Some "209" /\
  fst (stop stub_cancel_label false m1) = Ok tt /\
  commands (trace m2) = commands (trace m1) ++ ["squeue -h -j 209 -o %T"].
Proof. cbn zeta. split_and!; vm_compute; reflexivity. Qed.

Lemma start_stores_last_space_token_witness :
  slurm_job_id (self (snd (start stub_pending3 (Machine (alice (Some EmptyString)) []))))
  = Some "209".
Proof.
  destruct (start_stores_last_space_token stub_pending3 (alice (Some EmptyString)) []
              "secret" eq_refl) as (h & script & _ & Hrun).
  cbn zeta in Hrun. change (stub_pending3 h "sbatch" script) with sbatch_line in Hrun.
  vm_compute decode in Hrun.
  destruct Hrun as (tok & l & Hlast & _ & _ & _ & _ & _ & Hid & _).
  injection Hlast as <-. exact Hid.
Defined.

(** C9, as stated, fails: when [sbatch] sets the id off with a TAB, the
    final whitespace-delimited token is 209, but [start] stores
    job<TAB>209. *)
Lemma start_job_id_not_whitespace_token :
  let raw := stub_tab [] "sbatch" EmptyString in
  let m' := snd (start stub_tab (Machine (alice (Some EmptyString)) [])) in
  last_ws_token (Py.strip Py.bytes_isspace raw) = "209" /\
  slurm_job_id (self m') = Some ("job" +:+ tab +:+ "209") /\
  slurm_job_id (self m') <> Some (last_ws_token (Py.strip Py.bytes_isspace raw)).
Proof.
  cbn zeta. split_and!; [vm_compute; reflexivity | vm_compute; reflexivity |].
  vm_compute. discriminate.
Qed.

(** [stop] on a running job that [scancel] removes: three commands, the
    id cleared, and a second [stop] that adds none. *)
Example stop_twice_after_cancel :
  let m0 := Machine (alice (Some "209")) [] in
  let m1 := snd (stop stub_cancelled false m0) in
  let m2 := snd (stop stub_cancelled false m1) in
  commands (trace m1) = ["squeue -h -j 209 -o %T"; "scancel 209"; "squeue -h -j 209 -o %T"] /\
  slurm_job_id (self m1) = Some EmptyString /\
  trace m2 = trace m1.
Proof. cbn zeta. split_and!; vm_compute; reflexivity. Qed.

(** An empty submission output leaves an empty id: no state query is
    run and [start] returns 1. *)
Example start_empty_submission :
  let sched := stub EmptyString EmptyString [] "RUNNING" "" "" "" in
  let m' := snd (start sched (Machine (alice (Some EmptyString)) [])) in
  fst (start sched (Machine (alice (Some EmptyString)) [])) = Ok (Some 1) /\
  slurm_job_id (self m') = Some EmptyString /\
  commands (trace m') = ["sbatch"].
Proof. cbn zeta. split_and!; vm_compute; reflexivity. Qed.

(** A job id with a NUL in it: [Popen] raises before anything runs, in
    [poll] as in [stop]. *)
Example nul_in_job_id :
  let m0 := Machine (alice (Some nul_id)) [] in
  poll stub_running m0 = (Raise ValueError, m0) /\
  stop stub_running false m0 = (Raise ValueError, m0) /\
  get_slurm_job_info stub_running (Some nul_id) m0 = (Raise ValueError, m0).
Proof. cbn zeta. split_and!; vm_compute; reflexivity. Qed.

(** An id that [int] rejects is logged and stored all the same, here
    an id ending in the separator FS. *)
Example start_logs_odd_id :
  let sched := stub ("209" +:+ byte 28) ("job 209" +:+ byte 28) [] "RUNNING" "" "n1" "n1 1.2.3.4" in
  let run := start sched (Machine (alice (Some EmptyString)) []) in
  fst run = Ok None /\
  slurm_job_id (self (snd run)) = Some ("209" +:+ byte 28) /\
  In (Log INFO ("sbatch returned this at the end of their string: " +:+ "209" +:+ byte 28))
     (trace (snd run)).
Proof.
  cbn zeta. split_and!; [vm_compute; reflexivity | vm_compute; reflexivity |].
  vm_compute. tauto.
Qed.

(** * Further properties of the code *)

Section Extras.

Context {B : Type} `{SpawnerBase B} `{PyUnicode}.

(** X1.  Without JPY_API_TOKEN in its environment [start] raises
    [KeyError] for that key: the port is already stored, no command has
    been run, and the rest of the object, the job id included, is as it
    was. *)
Theorem start_missing_token_raises (sched : scheduler) (s : spawner B) tr0 :
  env s !! "JPY_API_TOKEN" = None ->
  exists m',
    start sched (Machine s tr0) = (Raise (KeyError "JPY_API_TOKEN"), m') /\
    self m' = set_server_port (random_port s) s /\
    slurm_job_id (self m') = slurm_job_id s /\
    commands (trace m') = commands tr0.
Proof. intros Hv. unfold start. run. rewrite Hv. run. eauto. Qed.

(** X2.  When the output of [sbatch] leaves an empty job id, [start]
    runs no state query at all: it stores the empty id, returns 1, and
    [sbatch] is the only command it has run. *)
Theorem start_empty_job_id (sched : scheduler) (s : spawner B) tr0 v :
  env s !! "JPY_API_TOKEN" = Some v ->
  submits sched EmptyString ->
  exists m',
    start sched (Machine s tr0) = (Ok (Some 1), m') /\
    slurm_job_id (self m') = Some EmptyString /\
    commands (trace m') = commands tr0 ++ ["sbatch"].
Proof.
  intros Hv Hsub.
  destruct (start_submitted sched s tr0 v EmptyString Hv Hsub) as (tr1 & -> & Hcmd & _).
  rewrite await_job_empty by done. eexists. split; [done |]. split; [done |].
  run. exact Hcmd.
Qed.

(** X3.  The loop of [start] honours RUNNING in any of the first 15
    answers: after [k < 15] PENDING answers and then RUNNING, with a
    node named for the job and an address printed for the node, [start]
    returns normally having run [sbatch], exactly [k + 1] state queries,
    the node query and [host]. *)
Theorem start_running_within_cap (sched : scheduler) (s : spawner B) tr0 v tok k node ip :
  env s !! "JPY_API_TOKEN" = Some v ->
  submits sched tok ->
  tok <> EmptyString ->
  k < 15 ->
  answers sched tok (count_exec (squeue_state_cmd tok) tr0)
                    (count_exec (squeue_state_cmd tok) tr0 + k) PENDING ->
  answers sched tok (count_exec (squeue_state_cmd tok) tr0 + k)
                    (count_exec (squeue_state_cmd tok) tr0 + S k) RUNNING ->
  names_node sched tok node ->
  resolves sched node ip ->
  exists m',
    start sched (Machine s tr0) = (Ok None, m') /\
    slurm_job_id (self m') = Some tok /\
    server_ip (self m') = ip /\
    commands (trace m')
      = commands tr0 ++ "sbatch" :: replicate (S k) (squeue_state_cmd tok)
                     ++ [squeue_node_cmd tok; host_cmd node].
Proof.
  intros Hv Hsub Hne Hk Hpend Hrun Hnode Hhost.
  destruct (start_running_after sched s tr0 v tok k node ip Hv Hsub Hne Hk Hpend Hrun
              Hnode Hhost) as (m' & Hstart & Hself & Hcmd & _).
  exists m'. rewrite Hself. by split_and!.
Qed.

(** X4.  Whatever [start] does, it stores the port first and touches
    nothing of the object besides port, job id and address: user,
    command, arguments, environment and the state of the base class are
    as before, also when it raises. *)
Theorem start_frame (sched : scheduler) (s : spawner B) tr0 :
  let s' := self (snd (start sched (Machine s tr0))) in
  server_port s' = random_port s /\
  user_name s' = user_name s /\
  cmd s' = cmd s /\
  args s' = args s /\
  env s' = env s /\
  base s' = base s.
Proof.
  cbn zeta. destruct (env s !! "JPY_API_TOKEN") as [v|] eqn:Hv.
  - destruct (start_submit sched s tr0 v Hv) as (e & c' & _ & Hstart). cbn zeta in Hstart.
    rewrite Hstart. destruct (parse_job_id _) as [tok|e0]; [| done].
    match goal with |- context [await_job sched ?m1] =>
      destruct (await_job_frame sched m1) as [Hs _]
    end.
    cbn zeta in Hs. by destruct Hs as [-> | [ip ->]].
  - unfold start. run. rewrite Hv. run. done.
Qed.

(** X5.  With a token and a command line free of [;], the first command
    [start] runs is [sbatch], and its standard input is the script whose
    export line is the token in double quotes and whose command line is
    every word of [cmd] and [get_args()] after a space. *)
Theorem start_submits_script (sched : scheduler) (s : spawner B) tr0 v :
  env s !! "JPY_API_TOKEN" = Some v ->
  Py.free_of ";" v ->
  Py.free_of ";" (Py.join " " (EmptyString :: cmd s ++ args s)) ->
  let script :=
    rendered_script ("export JPY_API_TOKEN=" +:+ dquote +:+ v +:+ dquote)
                    (Py.join " " (EmptyString :: cmd s ++ args s)) (user_name s) in
  exists l h,
    trace (snd (start sched (Machine s tr0))) = l ++ Exec "sbatch" script :: h /\
    commands h = commands tr0.
Proof.
  intros Hv Hfv Hfc. cbn zeta.
  apply (start_runs_sbatch sched s tr0 v _ _ []); [exact Hv |].
  rewrite start_command_line, split_app_sep by by apply export_free_of_semicolon.
  by rewrite split_free.
Qed.

(** X6.  Only the first two [;]-separated fields of the command reach
    the script: whatever follows a second [;] is dropped. *)
Theorem render_sbatch_drops_third_field (e c' rest user : string) :
  Py.free_of ";" e ->
  Py.free_of ";" c' ->
  render_sbatch (e +:+ ";" +:+ c' +:+ ";" +:+ rest) user = Ok (rendered_script e c' user) /\
  render_sbatch (e +:+ ";" +:+ c') user = Ok (rendered_script e c' user).
Proof.
  intros He Hc. split.
  - apply (render_sbatch_split _ _ _ _ (Py.split ";" rest)).
    change (e +:+ ";" +:+ c' +:+ ";" +:+ rest)
      with (e +:+ String ";" (c' +:+ String ";" rest)).
    by rewrite !split_app_sep.
  - apply (render_sbatch_split _ _ _ _ []).
    change (e +:+ ";" +:+ c') with (e +:+ String ";" c').
    by rewrite split_app_sep, split_free.
Qed.

(** X7.  A command with no [;] makes [_run_jupyterhub_singleuser] raise
    [IndexError] before it prints or submits anything: object and trace
    are unchanged. *)
Theorem submission_without_semicolon_raises (sched : scheduler) (c user : string)
    (m : machine B) :
  Py.contains ";" c = false ->
  _run_jupyterhub_singleuser sched c user m = (Raise IndexError, m).
Proof.
  intros Hc. unfold _run_jupyterhub_singleuser.
  rewrite render_sbatch_short; [reflexivity |].
  intros e c' l. rewrite split_free by by apply contains_char_free. discriminate.
Qed.

(** X8.  With a job id stored, [poll] tries exactly one command, the
    state query for that id, and never changes the object but to clear
    its state.  When the answer is text containing RUNNING or PENDING it
    returns [None] and leaves the object as it is; for any other text it
    returns 1 and clears the state.  With a NUL in the id it raises
    [ValueError] and nothing is run; when the answer is not UTF-8 it
    raises [UnicodeDecodeError] after the query. *)
Theorem poll_with_job_id (sched : scheduler) (m : machine B) j :
  slurm_job_id (self m) = Some j ->
  j <> EmptyString ->
  match state_reply sched j (trace m) with
  | Ok out =>
      exists m',
        poll sched m = (Ok (if alive out then None else Some 1), m') /\
        commands (trace m') = commands (trace m) ++ [squeue_state_cmd j] /\
        self m' = (if alive out then self m else clear_state (self m))
  | Raise e =>
      exists m',
        poll sched m = (Raise e, m') /\
        self m' = self m /\
        ((e = ValueError /\ Py.has_nul j = true /\ trace m' = trace m)
         \/ (e = UnicodeDecodeError /\ Py.has_nul j = false /\
             commands (trace m') = commands (trace m) ++ [squeue_state_cmd j]))
  end.
Proof.
  intros Hj Hne. rewrite (poll_present sched m j Hj Hne).
  destruct (state_reply sched j (trace m)) as [out|e] eqn:Hr.
  - destruct (alive out); eexists; (split; [reflexivity |]); (split; reflexivity).
  - eexists. split; [reflexivity |].
    apply run_reply_raise in Hr. rewrite state_cmd_nul in Hr. unfold ran.
    rewrite state_cmd_nul. destruct Hr as [[-> Hn] | [-> Hn]]; rewrite Hn.
    + split; [done |]. by left.
    + split; [done |]. by right.
Qed.

(** X9.  When the job is alive and [scancel] prints one of the four
    labels, [stop] returns without a second [poll] and keeps the job id:
    it has run the state query and [scancel] only, and the next [poll]
    asks the scheduler again. *)
Theorem stop_on_cancel_label (sched : scheduler) (now : bool) (m : machine B) j out label :
  slurm_job_id (self m) = Some j ->
  j <> EmptyString ->
  state_reply sched j (trace m) = Ok out ->
  alive out = true ->
  cancel_reply sched j
    (Log INFO ("Cancelling slurm job " +:+ j +:+ " for user " +:+ user_name (self m))
     :: checked (user_name (self m)) j out (trace m)) = Ok label ->
  is_cancel_label label = true ->
  exists m1,
    stop sched now m = (Ok tt, m1) /\
    self m1 = self m /\
    commands (trace m1) = commands (trace m) ++ [squeue_state_cmd j; scancel_cmd j] /\
    commands (trace (snd (poll sched m1))) = commands (trace m1) ++ [squeue_state_cmd j].
Proof.
  intros Hj Hne Ho Ha Hc Hl. pose proof (stop_present sched now m j Hj Hne) as Hstop.
  cbn zeta in Hstop. rewrite Ho, Ha in Hstop. cbn [negb] in Hstop.
  rewrite Hc, Hl in Hstop.
  eexists. split; [exact Hstop |]. split; [reflexivity |]. split.
  - unfold checked. run. by rewrite <- app_assoc.
  - match goal with |- context [poll sched ?m1] =>
      rewrite (poll_present sched m1 j Hj Hne)
    end.
    apply run_reply_ok in Ho. unfold ran. rewrite Ho.
    destruct (state_reply sched j _) as [out2|e]; [destruct (alive out2) |]; reflexivity.
Qed.

(** X10.  When the job is still alive after [scancel], [stop] does not
    retry: it has run the state query, [scancel] and one more state
    query, keeps the job id, and the last thing it does is log the
    warning that the job never cancelled. *)
Theorem stop_unconfirmed_warns (sched : scheduler) (now : bool) (m : machine B) j
    out label out2 :
  slurm_job_id (self m) = Some j ->
  j <> EmptyString ->
  let hc := Log INFO ("Cancelling slurm job " +:+ j +:+ " for user " +:+ user_name (self m))
            :: checked (user_name (self m)) j out (trace m) in
  state_reply sched j (trace m) = Ok out ->
  alive out = true ->
  cancel_reply sched j hc = Ok label ->
  is_cancel_label label = false ->
  state_reply sched j (Exec (scancel_cmd j) EmptyString :: hc) = Ok out2 ->
  alive out2 = true ->
  exists m1,
    stop sched now m = (Ok tt, m1) /\
    self m1 = self m /\
    commands (trace m1)
      = commands (trace m) ++ [squeue_state_cmd j; scancel_cmd j; squeue_state_cmd j] /\
    head (trace m1) = Some (Log WARN ("Job " +:+ j +:+ " never cancelled")).
Proof.
  intros Hj Hne hc Ho Ha Hc Hl Ho2 Ha2.
  pose proof (stop_present sched now m j Hj Hne) as Hstop.
  cbn zeta in Hstop. rewrite Ho, Ha in Hstop. cbn [negb] in Hstop. fold hc in Hstop.
  rewrite Hc, Hl, Ho2, Ha2 in Hstop. cbn [negb] in Hstop.
  eexists. split; [exact Hstop |]. split; [reflexivity |]. split; [| reflexivity].
  subst hc. unfold checked. run. by rewrite <- !app_assoc.
Qed.

(** X11.  The only change [poll] and [stop] make to the object is
    [clear_state]: afterwards it is either untouched or the cleared one,
    also when they raise, so port, address, user, command and
    environment are never changed by them.  They raise nothing but
    [ValueError] and [UnicodeDecodeError]. *)
Theorem poll_stop_frame (sched : scheduler) (now : bool) (m : machine B) :
  (self (snd (poll sched m)) = self m \/ self (snd (poll sched m)) = clear_state (self m)) /\
  (self (snd (stop sched now m)) = self m
   \/ self (snd (stop sched now m)) = clear_state (self m)) /\
  (forall e, fst (poll sched m) = Raise e -> e = ValueError \/ e = UnicodeDecodeError) /\
  (forall e, fst (stop sched now m) = Raise e -> e = ValueError \/ e = UnicodeDecodeError).
Proof.
  destruct (poll_frame sched m) as [Hp1 Hp2].
  destruct (stop_frame sched now m) as [Hs1 Hs2]. by split_and!.
Qed.

(** X12.  For a job id that is a string, [get_slurm_job_info] leaves the
    object alone.  With a NUL in the id it raises [ValueError] and runs
    nothing.  When the node query prints bytes that are not UTF-8 it
    raises [UnicodeDecodeError] after that query.  Otherwise it goes on
    to [host] with whatever name came back, the empty name included,
    raising in the same two ways there, and else returns an address
    with no space in it.  For [None] it raises [TypeError] before
    running anything. *)
Theorem get_slurm_job_info_address (sched : scheduler) (m : machine B) j :
  (exists res m',
     get_slurm_job_info sched (Some j) m = (res, m') /\
     self m' = self m /\
     match node_reply sched j (trace m) with
     | Raise e =>
         res = Raise e /\
         ((e = ValueError /\ Py.has_nul j = true /\ trace m' = trace m)
          \/ (e = UnicodeDecodeError /\ Py.has_nul j = false /\
              commands (trace m') = commands (trace m) ++ [squeue_node_cmd j]))
     | Ok node =>
         match host_reply sched node (Exec (squeue_node_cmd j) EmptyString :: trace m) with
         | Raise e =>
             res = Raise e /\
             ((e = ValueError /\ Py.has_nul node = true /\
               commands (trace m') = commands (trace m) ++ [squeue_node_cmd j])
              \/ (e = UnicodeDecodeError /\ Py.has_nul node = false /\
                  commands (trace m')
                    = commands (trace m) ++ [squeue_node_cmd j; host_cmd node]))
         | Ok ip =>
             res = Ok ip /\ Py.free_of " " ip /\
             commands (trace m') = commands (trace m) ++ [squeue_node_cmd j; host_cmd node]
         end
     end) /\
  get_slurm_job_info sched None m = (Raise TypeError, m).
Proof.
  split; [| reflexivity]. rewrite get_slurm_job_info_some.
  destruct (node_reply sched j (trace m)) as [node|e] eqn:Hn.
  - cbn zeta. cbn [trace].
    destruct (host_reply sched node _) as [ip|e] eqn:Hh.
    + eexists _, _. split; [reflexivity |]. split; [reflexivity |].
      split_and!; [done | by apply host_reply_free in Hh |].
      run. by rewrite <- app_assoc.
    + eexists _, _. split; [reflexivity |].
      apply host_reply_raise in Hh. unfold ran. rewrite host_cmd_nul.
      destruct Hh as [[-> Hx] | [-> Hx]]; rewrite Hx.
      * split; [done |]. split; [done |]. left. by split_and!.
      * split; [done |]. split; [done |]. right. split_and!; [done.. |].
        run. by rewrite <- app_assoc.
  - eexists _, _. split; [reflexivity |].
    apply node_reply_raise in Hn. unfold ran. rewrite node_cmd_nul.
    destruct Hn as [[-> Hx] | [-> Hx]]; rewrite Hx.
    + split; [done |]. split; [done |]. left. by split_and!.
    + split; [done |]. split; [done |]. right. by split_and!.
Qed.

(** X13.  [get_state] adds nothing but the job id: every other key of
    the blob is the base class's.  For an absent id, [None] or empty,
    the blob is the base class's own, and loading it gives the empty
    string as job id whatever the instance held: [None] does not come
    back as [None]. *)
Theorem get_state_absent_id (s other : spawner B) :
  truthy (slurm_job_id s) = false ->
  (forall b : B, base_get_state b !! job_id_key = None) ->
  get_state s = base_get_state (base s) /\
  slurm_job_id (load_state (get_state s) other) = Some EmptyString /\
  (forall s' k, k <> job_id_key -> get_state s' !! k = base_get_state (base s') !! k).
Proof.
  intros Hj Hbase.
  assert (Hget : get_state s = base_get_state (base s)).
  { unfold get_state. by destruct (slurm_job_id s) as [[|c r]|]. }
  split_and!.
  - exact Hget.
  - unfold load_state. cbn [slurm_job_id set_job_id]. by rewrite Hget, Hbase.
  - intros s' k Hk. unfold get_state.
    destruct (slurm_job_id s') as [[|c r]|]; [done | | done].
    by rewrite lookup_insert_ne.
Qed.

(** X14.  For a user the password database knows, [user_env] returns the
    dictionary it was given, with USER set to the user's name and HOME
    to the user's directory, every other variable kept, and calling it
    again changes nothing.  When the database raises, [user_env] raises
    the same exception, and the caller's dictionary already holds the
    new USER, everything else as it was. *)
Theorem user_env_sets_user_and_home (getpwnam : string -> result string)
    (s : spawner B) (environ : gmap string string) :
  match getpwnam (user_name s) with
  | Ok pw_dir =>
      exists e,
        user_env getpwnam s environ = (Ok e, e) /\
        e !! "USER" = Some (user_name s) /\
        e !! "HOME" = Some pw_dir /\
        (forall k, k <> "USER" -> k <> "HOME" -> e !! k = environ !! k) /\
        user_env getpwnam s e = (Ok e, e)
  | Raise err =>
      exists e,
        user_env getpwnam s environ = (Raise err, e) /\
        e !! "USER" = Some (user_name s) /\
        (forall k, k <> "USER" -> e !! k = environ !! k)
  end.
Proof.
  destruct (getpwnam (user_name s)) as [pw_dir|err] eqn:Hpw.
  - exists (<["HOME" := pw_dir]> (<["USER" := user_name s]> environ)).
    unfold user_env. rewrite Hpw. split_and!.
    + reflexivity.
    + by rewrite lookup_insert_ne, lookup_insert_eq.
    + by rewrite lookup_insert_eq.
    + intros k Hu Hh. by rewrite !lookup_insert_ne.
    + assert (Heq : <["HOME" := pw_dir]> (<["USER" := user_name s]>
                      (<["HOME" := pw_dir]> (<["USER" := user_name s]> environ)))
                    = <["HOME" := pw_dir]> (<["USER" := user_name s]> environ)).
      { apply map_eq. intros k.
        destruct (decide (k = "HOME")) as [-> | Hh];
          [by rewrite !lookup_insert_eq |].
        rewrite (lookup_insert_ne _ "HOME") by done.
        destruct (decide (k = "USER")) as [-> | Hu].
        - rewrite lookup_insert_eq, lookup_insert_ne, lookup_insert_eq; done.
        - by rewrite !lookup_insert_ne. }
      by rewrite Heq.
  - exists (<["USER" := user_name s]> environ). unfold user_env. rewrite Hpw. split_and!.
    + reflexivity.
    + by rewrite lookup_insert_eq.
    + intros k Hu. by rewrite lookup_insert_ne.
Qed.

(** X15.  The environment built by [_env_default] for a known user keeps
    the JPY_API_TOKEN of the base class's environment, so [start] with
    it gets past the lookup of the token: however it ends, it has run
    [sbatch]. *)
Theorem env_default_then_start (sched : scheduler) (getpwnam : string -> result string)
    (super_env : gmap string string) (s : spawner B) tr0 v pw_dir :
  getpwnam (user_name s) = Ok pw_dir ->
  super_env !! "JPY_API_TOKEN" = Some v ->
  exists e,
    _env_default getpwnam super_env s = (Ok e, e) /\
    e !! "JPY_API_TOKEN" = Some v /\
    In "sbatch" (commands (trace (snd (start sched (Machine (set_env e s) tr0))))).
Proof.
  intros Hpw Hv.
  exists (<["HOME" := pw_dir]> (<["USER" := user_name s]> super_env)).
  assert (He : <["HOME" := pw_dir]> (<["USER" := user_name s]> super_env)
               !! "JPY_API_TOKEN" = Some v).
  { by rewrite !lookup_insert_ne. }
  split_and!.
  - unfold _env_default, user_env. by rewrite Hpw.
  - exact He.
  - match goal with |- context [start sched (Machine ?s1 tr0)] =>
      destruct (export_cmd_split v (cmd s1 ++ args s1)) as (e' & c' & l & Hsplit);
      destruct (start_runs_sbatch sched s1 tr0 v e' c' l He Hsplit) as (l' & h & Htr & _)
    end.
    rewrite Htr, commands_app. cbn [commands]. rewrite !in_app_iff. cbn [In]. tauto.
Qed.

(** X16.  Once 15 answers have been PENDING, [start] does not look at
    the 16th: whatever state it names, [start] goes on to run the node
    query and [host], stores the address it reads and returns as after
    RUNNING. *)
Theorem start_after_cap_resolves_host (sched : scheduler) (s : spawner B) tr0 v tok
    node ip :
  env s !! "JPY_API_TOKEN" = Some v ->
  submits sched tok ->
  tok <> EmptyString ->
  answers sched tok (count_exec (squeue_state_cmd tok) tr0)
                    (count_exec (squeue_state_cmd tok) tr0 + 15) PENDING ->
  (forall h, count_exec (squeue_state_cmd tok) h = count_exec (squeue_state_cmd tok) tr0 + 15 ->
             exists out, state_reply sched tok h = Ok out) ->
  names_node sched tok node ->
  resolves sched node ip ->
  exists m',
    start sched (Machine s tr0) = (Ok None, m') /\
    server_ip (self m') = ip /\
    commands (trace m')
      = commands tr0 ++ "sbatch" :: replicate 16 (squeue_state_cmd tok)
                     ++ [squeue_node_cmd tok; host_cmd node].
Proof.
  intros Hv Hsub Hne Hpend Hread Hnode Hhost.
  destruct (start_exhausted sched s tr0 v tok node ip Hv Hsub Hne Hpend Hread Hnode Hhost)
    as (m' & Hstart & Hself & Hcmd & _).
  exists m'. rewrite Hself. by split_and!.
Qed.

(** X17.  A [start] that fails leaves the job id for [poll] to clear:
    when the job is still gone at the next state query, [poll] right
    after the failed [start] runs that one query, returns 1 and clears
    the id. *)
Theorem start_failure_then_poll_clears (sched : scheduler) (s : spawner B) tr0 v tok k :
  env s !! "JPY_API_TOKEN" = Some v ->
  submits sched tok ->
  tok <> EmptyString ->
  k < 15 ->
  answers sched tok (count_exec (squeue_state_cmd tok) tr0)
                    (count_exec (squeue_state_cmd tok) tr0 + k) PENDING ->
  answers sched tok (count_exec (squeue_state_cmd tok) tr0 + k)
                    (count_exec (squeue_state_cmd tok) tr0 + S (S k)) TERMINAL ->
  exists m1 m2,
    start sched (Machine s tr0) = (Ok (Some 1), m1) /\
    slurm_job_id (self m1) = Some tok /\
    poll sched m1 = (Ok (Some 1), m2) /\
    slurm_job_id (self m2) = Some EmptyString /\
    commands (trace m2) = commands (trace m1) ++ [squeue_state_cmd tok].
Proof.
  intros Hv Hsub Hne Hk Hpend Hterm.
  destruct (start_failed_after sched s tr0 v tok k Hv Hsub Hne Hk Hpend)
    as (m1 & Hstart & Hself & _ & Hcount).
  { intros h Hh. apply Hterm. lia. }
  assert (Hid : slurm_job_id (self m1) = Some tok) by (by rewrite Hself).
  destruct (Hterm (trace m1)) as (out & Hout & Hst); [lia |].
  assert (Hgone : alive out = false) by (by rewrite alive_derive_state, Hst).
  pose proof (poll_present sched m1 tok Hid Hne) as Hpoll. rewrite Hout, Hgone in Hpoll.
  eexists m1, _. split_and!; [done | done | exact Hpoll | done | done].
Qed.

End Extras.

(** * The further properties at concrete inputs *)

Lemma start_missing_token_raises_witness :
  exists m',
    start stub_running (Machine (set_env ∅ (alice (Some "7"))) [])
      = (Raise (KeyError "JPY_API_TOKEN"), m') /\
    self m' = set_server_port 8888%N (set_env ∅ (alice (Some "7"))) /\
    slurm_job_id (self m') = Some "7" /\
    commands (trace m') = [].
Proof.
  apply (start_missing_token_raises stub_running (set_env ∅ (alice (Some "7"))) []).
  reflexivity.
Defined.

Lemma start_empty_job_id_witness :
  exists m',
    start stub_silent (Machine (alice (Some "7")) []) = (Ok (Some 1), m') /\
    slurm_job_id (self m') = Some EmptyString /\
    commands (trace m') = [] ++ ["sbatch"].
Proof.
  apply (start_empty_job_id stub_silent (alice (Some "7")) [] "secret").
  - reflexivity.
  - intros h stdin. reflexivity.
Defined.

Lemma start_running_within_cap_witness :
  exists m',
    start stub_running (Machine (alice (Some EmptyString)) []) = (Ok None, m') /\
    slurm_job_id (self m') = Some "209" /\
    server_ip (self m') = "10.0.0.7" /\
    commands (trace m')
      = [] ++ "sbatch" :: replicate 1 (squeue_state_cmd "209")
           ++ [squeue_node_cmd "209"; host_cmd "node07"].
Proof.
  apply (start_running_within_cap stub_running (alice (Some EmptyString)) [] "secret" "209" 0
           "node07" "10.0.0.7").
  - reflexivity.
  - intros h stdin. reflexivity.
  - discriminate.
  - lia.
  - intros h Hh. simpl in Hh. lia.
  - apply stub_answers; [reflexivity |]. intros n Hn. exists "RUNNING".
    destruct n; split; reflexivity.
  - intros h. reflexivity.
  - intros h. reflexivity.
Defined.

Lemma start_submits_script_witness :
  exists l h,
    trace (snd (start stub_running (Machine (alice (Some EmptyString)) [])))
    = l ++ Exec "sbatch"
             (rendered_script ("export JPY_API_TOKEN=" +:+ dquote +:+ "secret" +:+ dquote)
                (Py.join " " [EmptyString; "jupyterhub-singleuser"; "--port=8888"]) "alice")
          :: h /\
    commands h = [].
Proof.
  apply (start_submits_script stub_running (alice (Some EmptyString)) [] "secret").
  - reflexivity.
  - apply contains_char_free. reflexivity.
  - apply contains_char_free. reflexivity.
Defined.

Lemma render_sbatch_drops_third_field_witness :
  render_sbatch ("export X=1" +:+ ";" +:+ "run.sh" +:+ ";" +:+ "rm -rf /") "alice"
    = Ok (rendered_script "export X=1" "run.sh" "alice") /\
  render_sbatch ("export X=1" +:+ ";" +:+ "run.sh") "alice"
    = Ok (rendered_script "export X=1" "run.sh" "alice").
Proof.
  apply (render_sbatch_drops_third_field "export X=1" "run.sh" "rm -rf /" "alice").
  - apply contains_char_free. reflexivity.
  - apply contains_char_free. reflexivity.
Defined.

Lemma submission_without_semicolon_raises_witness :
  _run_jupyterhub_singleuser stub_running "run.sh" "alice" (Machine (alice None) [])
    = (Raise IndexError, Machine (alice None) []).
Proof.
  apply (submission_without_semicolon_raises stub_running "run.sh" "alice"
           (Machine (alice None) [])).
  reflexivity.
Defined.

Lemma poll_with_job_id_witness :
  (exists m',
     poll stub_running (Machine (alice (Some "209")) []) = (Ok None, m') /\
     commands (trace m') = [] ++ [squeue_state_cmd "209"] /\
     self m' = alice (Some "209")) /\
  (exists m',
     poll stub_garbled (Machine (alice (Some "209")) []) = (Raise UnicodeDecodeError, m') /\
     self m' = alice (Some "209") /\
     ((UnicodeDecodeError = ValueError /\ Py.has_nul "209" = true /\ trace m' = [])
      \/ (UnicodeDecodeError = UnicodeDecodeError /\ Py.has_nul "209" = false /\
          commands (trace m') = [] ++ [squeue_state_cmd "209"]))).
Proof.
  split.
  - exact (poll_with_job_id stub_running (Machine (alice (Some "209")) []) "209" eq_refl
             ltac:(discriminate)).
  - exact (poll_with_job_id stub_garbled (Machine (alice (Some "209")) []) "209" eq_refl
             ltac:(discriminate)).
Defined.

Lemma stop_on_cancel_label_witness :
  exists m1,
    stop stub_cancel_label false (Machine (alice (Some "209")) []) = (Ok tt, m1) /\
    self m1 = alice (Some "209") /\
    commands (trace m1) = [] ++ [squeue_state_cmd "209"; scancel_cmd "209"] /\
    commands (trace (snd (poll stub_cancel_label m1)))
      = commands (trace m1) ++ [squeue_state_cmd "209"].
Proof.
  apply (stop_on_cancel_label stub_cancel_label false (Machine (alice (Some "209")) []) "209"
           "RUNNING" "CANCELLED"); first [reflexivity | discriminate].
Defined.

Lemma stop_unconfirmed_warns_witness :
  exists m1,
    stop stub_immortal false (Machine (alice (Some "209")) []) = (Ok tt, m1) /\
    self m1 = alice (Some "209") /\
    commands (trace m1)
      = [] ++ [squeue_state_cmd "209"; scancel_cmd "209"; squeue_state_cmd "209"] /\
    head (trace m1) = Some (Log WARN ("Job " +:+ "209" +:+ " never cancelled")).
Proof.
  apply (stop_unconfirmed_warns stub_immortal false (Machine (alice (Some "209")) []) "209"
           "RUNNING" "" "RUNNING"); first [reflexivity | discriminate].
Defined.

(** [get_slurm_job_info] on the stubs: an address, and the exception of
    a node name that is not UTF-8. *)
Example get_slurm_job_info_runs :
  let m0 := Machine (alice (Some "209")) [] in
  let garbled := stub "209" sbatch_line [] "RUNNING" "" ("node" +:+ byte 255) "" in
  fst (get_slurm_job_info stub_running (Some "209") m0) = Ok "10.0.0.7" /\
  commands (trace (snd (get_slurm_job_info stub_running (Some "209") m0)))
    = ["squeue -h -j 209 -o %N"; "host node07"] /\
  fst (get_slurm_job_info garbled (Some "209") m0) = Raise UnicodeDecodeError /\
  commands (trace (snd (get_slurm_job_info garbled (Some "209") m0)))
    = ["squeue -h -j 209 -o %N"].
Proof. cbn zeta. split_and!; vm_compute; reflexivity. Qed.

Lemma get_state_absent_id_witness :
  get_state (alice None) = base_get_state (base (alice None)) /\
  slurm_job_id (load_state (get_state (alice None)) (alice (Some "209")))
    = Some EmptyString /\
  (forall (s' : spawner token_base) k,
     k <> job_id_key -> get_state s' !! k = base_get_state (base s') !! k).
Proof.
  apply (get_state_absent_id (alice None) (alice (Some "209"))).
  - reflexivity.
  - apply token_base_no_job_key.
Defined.

(** [user_env] for a user the database knows, and for one it does not:
    the exception is the database's own. *)
Example user_env_runs :
  let known := user_env pw_alice (alice None) ∅ in
  let bob := Spawner None "bob" "" 0%N [] [] ∅ "" 0%N (TokenBase "") in
  let unknown := user_env pw_alice bob ∅ in
  fst known = Ok (snd known) /\
  snd known !! "USER" = Some "alice" /\
  snd known !! "HOME" = Some "/home/alice" /\
  fst unknown = Raise (KeyError "getpwnam(): name not found: 'bob'") /\
  snd unknown !! "USER" = Some "bob" /\
  snd unknown !! "HOME" = None.
Proof. cbn zeta. split_and!; reflexivity. Qed.

Lemma env_default_then_start_witness :
  exists e,
    _env_default pw_alice {["JPY_API_TOKEN" := "secret"]} (alice (Some EmptyString))
      = (Ok e, e) /\
    e !! "JPY_API_TOKEN" = Some "secret" /\
    In "sbatch"
       (commands (trace (snd (start stub_running
                                (Machine (set_env e (alice (Some EmptyString))) []))))).
Proof.
  apply (env_default_then_start stub_running pw_alice {["JPY_API_TOKEN" := "secret"]}
           (alice (Some EmptyString)) [] "secret" "/home/alice").
  - reflexivity.
  - reflexivity.
Defined.

Lemma start_after_cap_resolves_host_witness :
  exists m',
    start stub_always_pending (Machine (alice (Some EmptyString)) []) = (Ok None, m') /\
    server_ip (self m') = EmptyString /\
    commands (trace m')
      = [] ++ "sbatch" :: replicate 16 (squeue_state_cmd "209")
           ++ [squeue_node_cmd "209"; host_cmd EmptyString].
Proof.
  apply (start_after_cap_resolves_host stub_always_pending (alice (Some EmptyString)) []
           "secret" "209" EmptyString EmptyString).
  - reflexivity.
  - intros h stdin. reflexivity.
  - discriminate.
  - apply stub_answers; [reflexivity |]. intros n Hn. exists "PENDING".
    destruct n; split; reflexivity.
  - intros h Hh. exists "PENDING". unfold stub_always_pending.
    rewrite stub_state_reply by reflexivity. by destruct (count_exec _ h).
  - intros h. reflexivity.
  - intros h. reflexivity.
Defined.

Lemma start_failure_then_poll_clears_witness :
  exists m1 m2,
    start stub_failed (Machine (alice (Some EmptyString)) []) = (Ok (Some 1), m1) /\
    slurm_job_id (self m1) = Some "209" /\
    poll stub_failed m1 = (Ok (Some 1), m2) /\
    slurm_job_id (self m2) = Some EmptyString /\
    commands (trace m2) = commands (trace m1) ++ [squeue_state_cmd "209"].
Proof.
  apply (start_failure_then_poll_clears stub_failed (alice (Some EmptyString)) []
           "secret" "209" 0).
  - reflexivity.
  - intros h stdin. reflexivity.
  - discriminate.
  - lia.
  - intros h Hh. simpl in Hh. lia.
  - apply stub_answers; [reflexivity |]. intros n Hn. exists "FAILED".
    destruct n as [|[|n]]; split; reflexivity.
Defined.

(** A token with a [;] in it is cut at the [;] in the export line. *)
Example token_with_semicolon_is_cut :
  let s := set_env {["JPY_API_TOKEN" := "se;cret"]} (alice (Some EmptyString)) in
  exists l h,
    trace (snd (start stub_running (Machine s [])))
    = l ++ Exec "sbatch"
             (rendered_script ("export JPY_API_TOKEN=" +:+ dquote +:+ "se") ("cret" +:+ dquote)
                "alice")
          :: h.
Proof.
  cbn zeta.
  exists (firstn 7 (trace (snd (start stub_running
            (Machine (set_env {["JPY_API_TOKEN" := "se;cret"]} (alice (Some EmptyString))) []))))),
         (skipn 8 (trace (snd (start stub_running
            (Machine (set_env {["JPY_API_TOKEN" := "se;cret"]} (alice (Some EmptyString))) []))))).
  vm_compute. reflexivity.
Qed.

(** When [sbatch] prints bytes that are not UTF-8, [start] raises after
    the submission and stores no job id. *)
Example start_garbled_submission :
  let sched := stub "209" ("job " +:+ byte 255) [] "RUNNING" "" "" "" in
  let run := start sched (Machine (alice (Some "7")) []) in
  fst run = Raise UnicodeDecodeError /\
  slurm_job_id (self (snd run)) = Some "7" /\
  commands (trace (snd run)) = ["sbatch"].
Proof. cbn zeta. split_and!; vm_compute; reflexivity. Qed.
